(** * Trackball-to-scroll translator: a shallow embedding of [main.go]

    The Go program reads relative-motion events from a grabbed evdev
    device and re-emits them as wheel events through a uinput device.
    This file embeds the functions of [main.go] and proves properties of
    them.

    Conventions of the embedding
    - [int32] values are [Z] with the two's-complement wrap-around written
      out ([wrap32]); [float64] values are IEEE-754 binary64 numbers, as
      [spec_float] with precision 53 and maximal exponent 1024.
    - system calls act on an explicit [World]: the trace of effects
      performed so far.  What the outside decides (whether a write or a
      read fails, when the stop channel is closed, the wall clock) is given
      by oracles, the fields of [Env]; each sees the history so far.
    - a loop that may run for ever takes fuel, and [OutOfFuel] says that it
      is still running. *)

From Stdlib Require Import ZArith List Bool Lia String Ascii.
From Stdlib Require Import DecimalString DecimalNat FinFun.
From Stdlib Require Import Floats.SpecFloat.
Import ListNotations.

Local Open Scope Z_scope.

(** * Part I: the program *)

(** ** Machine integers *)

Module Int32.

Definition min_int : Z := -2147483648.
Definition max_int : Z := 2147483647.
Definition modulus : Z := 4294967296.

Definition in_range (x : Z) : Prop := min_int <= x <= max_int.

Definition in_rangeb (x : Z) : bool := (min_int <=? x) && (x <=? max_int).

(** The value of type [int32] that an integer result is reduced to. *)
Definition wrap32 (x : Z) : Z := (x + 2147483648) mod modulus - 2147483648.

(** Unary minus of Go on [int32]. *)
Definition neg (x : Z) : Z := wrap32 (- x).

End Int32.

(** ** Floating point: [float64] *)

Module Float64.

Definition prec : Z := 53.
Definition emax : Z := 1024.

Definition float64 : Type := spec_float.

Definition mul (x y : float64) : float64 := SFmul prec emax x y.

(** The conversion [float64(v)] of an [int32]: exact, since 32 bits fit
    the 53-bit significand. *)
Definition of_int32 (v : Z) : float64 := binary_normalize prec emax v 0 false.

(** The integer a finite float truncates to (rounding toward zero);
    nothing for an infinity or a NaN. *)
Definition trunc (x : float64) : option Z :=
  match x with
  | S754_zero _ => Some 0
  | S754_finite s m e =>
      let a := if 0 <=? e then Z.pos m * 2 ^ e else Z.pos m / 2 ^ (- e) in
      Some (if s then - a else a)
  | S754_infinity _ | S754_nan => None
  end.

(** The conversion [int32(x)].  Go leaves its result to the
    implementation when [x] truncates to no [int32]; [cvt_invalid] is
    what the implementation yields there. *)
Definition to_int32 (cvt_invalid : float64 -> Z) (x : float64) : Z :=
  match trunc x with
  | Some z => if Int32.in_rangeb z then z else Int32.wrap32 (cvt_invalid x)
  | None => Int32.wrap32 (cvt_invalid x)
  end.

(** What amd64 yields (CVTTSD2SL: the "integer indefinite" value). *)
Definition cvt_amd64 (_ : float64) : Z := Int32.min_int.

(** Some [float64] constants: 1.0, 2.0 and the double nearest to 0.3,
    the default sensitivity. *)
Definition one : float64 := S754_finite false 4503599627370496 (-52).
Definition two : float64 := S754_finite false 4503599627370496 (-51).
Definition DEFAULT_SENSITIVITY : float64 :=
  S754_finite false 5404319552844595 (-54).

End Float64.

Import Float64.

(** ** Strings: the parts of Go's [strings] and [fmt] the program uses *)

Module strings.

Local Open Scope string_scope.

Definition is_upper (c : ascii) : bool :=
  let n := N_of_ascii c in (65 <=? n)%N && (n <=? 90)%N.

(** ['A'..'Z'] go to ['a'..'z'], every other byte stays. *)
Definition lower_byte (c : ascii) : ascii :=
  if is_upper c then ascii_of_N (N_of_ascii c + 32) else c.

Fixpoint map_bytes (f : ascii -> ascii) (s : string) : string :=
  match s with
  | EmptyString => EmptyString
  | String c s' => String (f c) (map_bytes f s')
  end.

(** No byte of [s] is [utf8.RuneSelf] (0x80) or more. *)
Fixpoint isASCII (s : string) : bool :=
  match s with
  | EmptyString => true
  | String c s' => (N_of_ascii c <? 128)%N && isASCII s'
  end.

(** [strings.ToLower]: byte-wise on an ASCII string; any other string is
    mapped rune by rune through [unicode.ToLower], whose tables are the
    parameter [unicode_lower]. *)
Definition ToLower (unicode_lower : string -> string) (s : string) : string :=
  if isASCII s then map_bytes lower_byte s else unicode_lower s.

Fixpoint HasPrefix (s prefix : string) : bool :=
  match prefix, s with
  | EmptyString, _ => true
  | String p prefix', String c s' => Ascii.eqb p c && HasPrefix s' prefix'
  | String _ _, EmptyString => false
  end.

(** [strings.Contains]: [substr] occurs within [s]. *)
Fixpoint Contains (s substr : string) : bool :=
  HasPrefix s substr ||
  match s with
  | EmptyString => false
  | String _ s' => Contains s' substr
  end.

(** The verb [%d] of [fmt] at a non-negative integer. *)
Definition itoa (n : nat) : string := NilEmpty.string_of_uint (Nat.to_uint n).

End strings.

(** ** Kernel and library constants *)

Definition MAX_EVENT_DEVICES : nat := 32.

Definition UI_DEV_DESTROY : Z := 0x5502.
Definition EV_REL : Z := 0x02.
Definition REL_WHEEL : Z := 0x08.
Definition REL_HWHEEL : Z := 0x06.
Definition EV_SYN : Z := 0x00.
Definition SYN_REPORT : Z := 0x00.

Definition trackballKeywords : list string :=
  [ "trackball"; "expert mouse"; "orbit"; "slimblade" ]%string.

(** The package [evdev] (golang-evdev): the event codes are those of
    [linux/input-event-codes.h]. *)
Module evdev.

Definition EV_REL : Z := 0x02.
Definition REL_X : Z := 0x00.
Definition REL_Y : Z := 0x01.

(** An event as [InputDevice.Read] returns it (its time stamp is never
    looked at). *)
Record InputEvent : Type := mkInputEvent {
  Type_ : Z;   (* uint16 *)
  Code : Z;    (* uint16 *)
  Value : Z    (* int32 *)
}.

Record InputDevice : Type := mkInputDevice {
  Fn : string;
  Name : string
}.

End evdev.

(** ** Data of the program *)

Record Timeval : Type := mkTimeval { Sec : Z; Usec : Z }.

(** [InputEvent]: one record written to the uinput device. *)
Record InputEvent : Type := mkInputEvent {
  Time : Timeval;
  Type_ : Z;   (* uint16 *)
  Code : Z;    (* uint16 *)
  Value : Z    (* int32 *)
}.

(** [TrackballScroller]; [device] is a pointer, [None] is [nil]. *)
Record TrackballScroller : Type := mkTrackballScroller {
  device : option evdev.InputDevice;
  virtualFd : Z;
  sensitivity : float64;
  deadZone : Z   (* int32 *)
}.

(** The arguments of one call of [sendScrollEvent]: a Scroll Command. *)
Record ScrollCommand : Type := mkScrollCommand {
  isHorizontal : bool;
  scrollValue : Z   (* int32 *)
}.

(** Go's [error]: [None] is [nil], otherwise the message. *)
Definition error : Type := option string.

Inductive Result (A : Type) : Type :=
| Ok (a : A)
| Err (msg : string).

Arguments Ok {A} a.
Arguments Err {A} msg.

(** ** The world *)

(** What the program does to the outside, one constructor per call. *)
Inductive Effect : Type :=
| SysWrite (fd : Z) (ev : InputEvent) (err : error)
    (* syscall.Write of one record, and its error *)
| SysIoctl (fd : Z) (request : Z)
| SysClose (fd : Z)
| DevRead (err : error)          (* InputDevice.Read *)
| DevRelease (d : evdev.InputDevice)
| DevOpen (path : string) (err : error)   (* evdev.Open *)
| DevGrab (d : evdev.InputDevice) (err : error)
| FileClose (path : string)
| CreateVirtualDevice (fd : Result Z)     (* createScrollOnlyDevice *)
| Print (msg : string)
| PrintSettings (path : string) (sensitivity : float64) (deadZone : Z).
    (* the line "Device: %s | Sensitivity: %.2f | Dead zone: %d" *)

(** The effects so far, oldest first. *)
Definition World : Type := list Effect.

(** The outside: each oracle answers from the history so far. *)
Record Env : Type := mkEnv {
  cvt_invalid : float64 -> Z;
  unicode_lower : string -> string;
  write_error : World -> Z -> InputEvent -> error;
  time_Now : World -> Z;     (* now.Unix() *)
  stop_closed : World -> bool;   (* the stop channel is closed *)
  read_result : World -> Result (list evdev.InputEvent);
  open_result : string -> Result evdev.InputDevice;
  grab_error : World -> error;
  create_result : World -> Result Z    (* what createScrollOnlyDevice returns *)
}.

(** How a call ends. *)
Inductive Outcome (A : Type) : Type :=
| Done (a : A) (w : World)
| Panic (w : World)     (* a run-time panic: nil pointer dereference *)
| OutOfFuel.

Arguments Done {A} a w.
Arguments Panic {A} w.
Arguments OutOfFuel {A}.

(** ** The functions of [main.go] *)

Section Program.

Variable env : Env.

Local Open Scope string_scope.
Local Open Scope Z_scope.
Local Open Scope list_scope.

Definition nl : string := String "010" EmptyString.

(** *** Device discovery *)

(** [isTrackballDevice]: the loop over [trackballKeywords]. *)
Fixpoint matchesKeyword (name : string) (keywords : list string) : bool :=
  match keywords with
  | [] => false
  | keyword :: rest =>
      if strings.Contains name keyword then true
      else matchesKeyword name rest
  end.

Definition isTrackballDevice (deviceName : string) : bool :=
  let name := strings.ToLower (unicode_lower env) deviceName in
  matchesKeyword name trackballKeywords.

Definition devicePathOf (i : nat) : string :=
  ("/dev/input/event" ++ strings.itoa i)%string.

(** The loop of [findTrackballDevices], with [n] nodes left to visit
    from node [i] on. *)
Fixpoint scanDevices (n i : nat) (trackballPaths : list string) (w : World)
  : list string * World :=
  match n with
  | O => (trackballPaths, w)
  | S n' =>
      let devicePath := devicePathOf i in
      match open_result env devicePath with
      | Err e =>
          scanDevices n' (S i) trackballPaths
            (w ++ [DevOpen devicePath (Some e)])
      | Ok dev =>
          let w1 := w ++ [DevOpen devicePath None] in
          if isTrackballDevice (evdev.Name dev) then
            scanDevices n' (S i) (trackballPaths ++ [devicePath])
              (w1 ++ [Print ("Found trackball: " ++ evdev.Name dev ++ " ("
                               ++ devicePath ++ ")" ++ nl);
                      FileClose devicePath])
          else
            scanDevices n' (S i) trackballPaths (w1 ++ [FileClose devicePath])
      end
  end.

(** Node [i] opens and its name is that of a trackball. *)
Definition trackballNode (i : nat) : bool :=
  match open_result env (devicePathOf i) with
  | Ok dev => isTrackballDevice (evdev.Name dev)
  | Err _ => false
  end.

Definition findTrackballDevices (w : World) : (list string * error) * World :=
  let '(trackballPaths, w') := scanDevices MAX_EVENT_DEVICES 0 [] w in
  ((trackballPaths, None), w').

(** The lines printed for several trackballs, numbered from [i + 1]. *)
Fixpoint printTrackballs (i : nat) (trackballs : list string) : World :=
  match trackballs with
  | [] => []
  | path :: rest =>
      Print ("  " ++ strings.itoa (i + 1) ++ ": " ++ path ++ nl)
        :: printTrackballs (S i) rest
  end.

Definition selectDevice (devicePath : string) (w : World)
  : (string * error) * World :=
  if negb (String.eqb devicePath "auto") then ((devicePath, None), w)
  else
    let w1 := w ++ [Print ("Detecting trackball devices..." ++ nl)] in
    let '((trackballs, err), w2) := findTrackballDevices w1 in
    match err with
    | Some e => (("", Some ("failed to scan for devices: " ++ e)%string), w2)
    | None =>
        match trackballs with
        | [] =>
            (("", Some "no trackball devices found. Try to manually add a device with -device"),
             w2)
        | first :: _ =>
            let w3 :=
              if (1 <? List.length trackballs)%nat then
                w2 ++ [Print ("Multiple trackballs found:" ++ nl)]
                   ++ printTrackballs 0 trackballs
                   ++ [Print ("Using first one: " ++ first ++ nl)]
              else w2 in
            ((first, None), w3)
        end
    end.

(** *** Emission *)

Definition syscall_Write (fd : Z) (event : InputEvent) (w : World)
  : error * World :=
  let err := write_error env w fd event in
  (err, w ++ [SysWrite fd event err]).

(** The loop of [sendScrollEvent] over its two records. *)
Fixpoint writeEvents (fd : Z) (events : list InputEvent) (w : World)
  : error * World :=
  match events with
  | [] => (None, w)
  | event :: rest =>
      match syscall_Write fd event w with
      | (Some err, w') => (Some ("failed to write event: " ++ err)%string, w')
      | (None, w') => writeEvents fd rest w'
      end
  end.

Definition scrollEvents (now : Z) (horizontal : bool) (value : Z)
  : list InputEvent :=
  let code := if horizontal then REL_HWHEEL else REL_WHEEL in
  [ {| Time := {| Sec := now; Usec := 0 |};
       Type_ := EV_REL; Code := code; Value := value |};
    {| Time := {| Sec := now; Usec := 0 |};
       Type_ := EV_SYN; Code := SYN_REPORT; Value := 0 |} ].

Definition sendScrollEvent (ts : TrackballScroller)
    (horizontal : bool) (value : Z) (w : World) : error * World :=
  let now := time_Now env w in
  writeEvents (virtualFd ts) (scrollEvents now horizontal value) w.

(** *** Translation *)

Definition abs (x : Z) : Z := if x <? 0 then Int32.neg x else x.

(** [int32(float64(value) * sensitivity)] *)
Definition scale (s : float64) (value : Z) : Z :=
  to_int32 (cvt_invalid env) (mul (of_int32 value) s).

(** The body of the loop of [handleEvents] down to the call of
    [sendScrollEvent]: the arguments of that call, if it is reached. *)
Definition scrollCommand (ts : TrackballScroller) (event : evdev.InputEvent)
  : option ScrollCommand :=
  if negb (evdev.Type_ event =? evdev.EV_REL) then None
  else
    let axis :=
      if evdev.Code event =? evdev.REL_X then
        Some {| isHorizontal := true;
                scrollValue := scale (sensitivity ts) (evdev.Value event) |}
      else if evdev.Code event =? evdev.REL_Y then
        Some {| isHorizontal := false;
                scrollValue :=
                  Int32.neg (scale (sensitivity ts) (evdev.Value event)) |}
      else None in
    match axis with
    | None => None
    | Some c =>
        if (abs (evdev.Value event) >? deadZone ts)
           && negb (scrollValue c =? 0)
        then Some c
        else None
    end.

(** The error of [sendScrollEvent] is dropped, as in the source. *)
Fixpoint handleEvents (ts : TrackballScroller)
    (events : list evdev.InputEvent) (w : World) : World :=
  match events with
  | [] => w
  | event :: rest =>
      match scrollCommand ts event with
      | Some c =>
          let '(_, w') :=
            sendScrollEvent ts (isHorizontal c) (scrollValue c) w in
          handleEvents ts rest w'
      | None => handleEvents ts rest w
      end
  end.

(** The Scroll Commands of a batch, in the order of its samples. *)
Fixpoint scrollCommands (ts : TrackballScroller)
    (events : list evdev.InputEvent) : list ScrollCommand :=
  match events with
  | [] => []
  | event :: rest =>
      match scrollCommand ts event with
      | Some c => c :: scrollCommands ts rest
      | None => scrollCommands ts rest
      end
  end.

(** One call of [sendScrollEvent] per command, its error dropped. *)
Fixpoint emitAll (ts : TrackballScroller) (cmds : list ScrollCommand)
    (w : World) : World :=
  match cmds with
  | [] => w
  | c :: rest =>
      emitAll ts rest
        (snd (sendScrollEvent ts (isHorizontal c) (scrollValue c) w))
  end.

(** *** Life cycle *)

(** [InputDevice.Release] through a pointer: a nil pointer panics. *)
Definition InputDevice_Release (d : option evdev.InputDevice) (w : World)
  : Outcome unit :=
  match d with
  | None => Panic w
  | Some dev => Done tt (w ++ [DevRelease dev])
  end.

Definition close (ts : TrackballScroller) (w : World) : Outcome unit :=
  let w1 :=
    if 0 <=? virtualFd ts then
      w ++ [SysIoctl (virtualFd ts) UI_DEV_DESTROY; SysClose (virtualFd ts)]
    else w in
  match device ts with
  | Some _ => InputDevice_Release (device ts) w1
  | None => Done tt w1
  end.

(** [processEvents], for at most [fuel] turns of its loop.  A closed
    channel is always ready, so the [select] takes its first case as
    soon as [stopChan] is closed. *)
Fixpoint processEvents (fuel : nat) (ts : TrackballScroller) (w : World)
  : Outcome error :=
  match fuel with
  | O => OutOfFuel
  | S fuel' =>
      if stop_closed env w then Done None w
      else
        match device ts with
        | None => Panic w
        | Some _ =>
            match read_result env w with
            | Err e =>
                Done (Some ("error reading events: " ++ e)%string)
                     (w ++ [DevRead (Some e)])
            | Ok events =>
                processEvents fuel' ts
                  (handleEvents ts events (w ++ [DevRead None]))
            end
        end
  end.

(** [createScrollOnlyDevice] is not embedded: the environment gives the
    descriptor or the error it returns. *)
Definition createScrollOnlyDevice (w : World) : Result Z * World :=
  let r := create_result env w in (r, w ++ [CreateVirtualDevice r]).

Definition newTrackballScroller (dev : evdev.InputDevice)
    (sensitivity : float64) (deadZone : Z) (w : World)
  : Result TrackballScroller * World :=
  match createScrollOnlyDevice w with
  | (Err e, w') => (Err ("cannot create virtual device: " ++ e)%string, w')
  | (Ok virtualFd, w') =>
      (Ok {| device := Some dev; virtualFd := virtualFd;
             sensitivity := sensitivity; deadZone := deadZone |}, w')
  end.

Definition openTrackballDevice (devicePath : string) (w : World)
  : Result evdev.InputDevice * World :=
  match open_result env devicePath with
  | Err e =>
      (Err ("failed to open device " ++ devicePath ++ ": " ++ e)%string,
       w ++ [DevOpen devicePath (Some e)])
  | Ok dev =>
      let w1 := w ++ [DevOpen devicePath None] in
      match grab_error env w1 with
      | Some e =>
          (Err ("failed to grab device " ++ devicePath ++ ": " ++ e)%string,
           w1 ++ [DevGrab dev (Some e)])
      | None => (Ok dev, w1 ++ [DevGrab dev None])
      end
  end.

(** [log.Fatal] and [log.Fatalf] print and call [os.Exit(1)]: the process
    ends there, and the calls deferred by the running functions are not
    run. *)
Definition log_Fatalf (msg : string) (w : World) : Outcome Z :=
  Done 1 (w ++ [Print msg]).

(** [main] from [defer scroller.close()] on.  The result is the exit
    status of the process.  The deferred call runs when [main] returns,
    and when it panics (exit status 2). *)
Definition main_running (scroller : TrackballScroller)
    (dev : evdev.InputDevice) (fuel : nat) (w : World) : Outcome Z :=
  let w1 :=
    w ++ [Print ("Ready: " ++ evdev.Name dev ++ " | Press Ctrl+C to exit" ++ nl)] in
  match processEvents fuel scroller w1 with
  | OutOfFuel => OutOfFuel
  | Panic w2 =>
      match close scroller w2 with
      | Done _ w3 | Panic w3 => Done 2 w3
      | OutOfFuel => OutOfFuel
      end
  | Done (Some err) w2 =>
      log_Fatalf ("Error processing events: " ++ err) w2
  | Done None w2 =>
      match close scroller (w2 ++ [Print ("Trackball scroller stopped." ++ nl)]) with
      | Done _ w3 => Done 0 w3
      | Panic w3 => Done 2 w3
      | OutOfFuel => OutOfFuel
      end
  end.

(** [main]; the three flags are its arguments. *)
Definition main (sensitivity : float64) (deadZone : Z) (devicePath : string)
    (fuel : nat) (w : World) : Outcome Z :=
  let w0 :=
    w ++ [Print ("Trackball Scroll - Converting trackball movement to scroll events" ++ nl)] in
  let '((finalDevicePath, err), w1) := selectDevice devicePath w0 in
  match err with
  | Some e => log_Fatalf e w1
  | None =>
      let w2 := w1 ++ [PrintSettings finalDevicePath sensitivity deadZone] in
      match openTrackballDevice finalDevicePath w2 with
      | (Err e, w3) => log_Fatalf ("Failed to open device: " ++ e) w3
      | (Ok dev, w3) =>
          match newTrackballScroller dev sensitivity
                  (Int32.wrap32 deadZone) w3 with
          | (Err e, w4) => log_Fatalf ("Failed to create scroller: " ++ e) w4
          | (Ok scroller, w4) => main_running scroller dev fuel w4
          end
      end
  end.

(** The stop channel is closed at most once and never reopened. *)
Definition one_shot : Prop :=
  forall w w', stop_closed env w = true -> stop_closed env (w ++ w') = true.

End Program.

(** ** Sample environments and values *)

Module Samples.

Local Open Scope string_scope.

Definition trackball : evdev.InputDevice :=
  {| evdev.Fn := "/dev/input/event3"; evdev.Name := "Kensington Expert Mouse" |}.

(** Three device nodes exist. *)
Definition open3 (path : string) : Result evdev.InputDevice :=
  if String.eqb path "/dev/input/event3" then Ok trackball
  else if String.eqb path "/dev/input/event7" then
    Ok {| evdev.Fn := path; evdev.Name := "Generic USB Mouse" |}
  else if String.eqb path "/dev/input/event12" then
    Ok {| evdev.Fn := path; evdev.Name := "SlimBlade Pro" |}
  else Err "no such file or directory".

Definition batch : list evdev.InputEvent :=
  [ evdev.mkInputEvent evdev.EV_REL evdev.REL_Y 20;
    evdev.mkInputEvent evdev.EV_REL evdev.REL_X 10 ].

Definition always_ok : World -> Z -> InputEvent -> error :=
  fun _ _ _ => None.

(** The environment of the samples: the first four fields vary. *)
Definition mk (we : World -> Z -> InputEvent -> error)
    (stop : World -> bool) (rd : World -> Result (list evdev.InputEvent))
    (op : string -> Result evdev.InputDevice) : Env :=
  {| cvt_invalid := cvt_amd64;
     unicode_lower := fun s => s;
     write_error := we;
     time_Now := fun _ => 1700000000;
     stop_closed := stop;
     read_result := rd;
     open_result := op;
     grab_error := fun _ => None;
     create_result := fun _ => Ok 5 |}.

Definition stop_after (n : nat) (w : World) : bool :=
  (n <=? List.length w)%nat.

Definition env_ok (n : nat) : Env :=
  mk always_ok (stop_after n) (fun _ => Ok batch) open3.

(** As [env_ok], but every write to the virtual device fails. *)
Definition env_write_fails (n : nat) : Env :=
  mk (fun _ _ _ => Some "no such device") (stop_after n)
     (fun _ => Ok batch) open3.

(** As [env_ok], but the write of a synchronization record fails. *)
Definition env_sync_fails (n : nat) : Env :=
  mk (fun _ _ ev =>
        if (Type_ ev =? EV_SYN)%Z then Some "no such device" else None)
     (stop_after n) (fun _ => Ok batch) open3.

(** As [env_ok], but the reads of the device fail and the stop channel
    is never closed. *)
Definition env_read_fails : Env :=
  mk always_ok (fun _ => false) (fun _ => Err "no such device") open3.

(** No device node exists. *)
Definition env_no_devices : Env :=
  mk always_ok (fun _ => false) (fun _ => Ok [])
     (fun _ => Err "no such file or directory").

Definition sampleX (v : Z) : evdev.InputEvent :=
  evdev.mkInputEvent evdev.EV_REL evdev.REL_X v.

Definition sampleY (v : Z) : evdev.InputEvent :=
  evdev.mkInputEvent evdev.EV_REL evdev.REL_Y v.

Definition scroller (s : float64) (d : Z) : TrackballScroller :=
  {| device := Some trackball; virtualFd := 5;
     sensitivity := s; deadZone := d |}.

End Samples.

(** ** The creation of the virtual device, call by call *)

(** [createScrollOnlyDevice] with its helpers [configureDevice],
    [setupDevice] and [createDevice], over the system calls they make. *)
Module uinput.

Local Open Scope string_scope.
Local Open Scope Z_scope.
Local Open Scope list_scope.

Definition DEVICE_SETUP_DELAY : Z := 100.   (* milliseconds *)

Definition UINPUT_MAX_NAME_SIZE : nat := 80.
Definition UI_SET_EVBIT : Z := 0x40045564.
Definition UI_SET_RELBIT : Z := 0x40045566.
Definition UI_DEV_SETUP : Z := 0x405c5503.
Definition UI_DEV_CREATE : Z := 0x5501.

Definition O_WRONLY : Z := 0x1.
Definition O_NONBLOCK : Z := 0x800.

Record InputID : Type := mkInputID {
  Bustype : Z;   (* uint16 *)
  Vendor : Z;    (* uint16 *)
  Product : Z;   (* uint16 *)
  Version : Z    (* uint16 *)
}.

(** [UinputSetup]; its last field (unused, always zero) is left out. *)
Record UinputSetup : Type := mkUinputSetup {
  ID : InputID;
  Name : list ascii   (* [UINPUT_MAX_NAME_SIZE]byte *)
}.

(** The builtin [copy] into a byte array: as many bytes as fit. *)
Fixpoint copy (dst : list ascii) (src : string) : list ascii :=
  match dst, src with
  | _ :: dst', String c src' => c :: copy dst' src'
  | _, _ => dst
  end.

(** The third argument of an [ioctl]: a number or the address of a
    [UinputSetup]. *)
Inductive Arg : Type :=
| Value (v : Z)
| SetupPtr (setup : UinputSetup).

Inductive Syscall : Type :=
| Open (path : string) (mode : Z) (r : Result Z)
| Ioctl (fd : Z) (cmd : Z) (arg : Arg) (errno : Z)
| Close (fd : Z)
| Sleep (ms : Z).

Definition Trace : Type := list Syscall.

(** The kernel: what [open] and [ioctl] answer after a given history, and
    the text of an error number. *)
Record Sys : Type := mkSys {
  open_result : Trace -> string -> Z -> Result Z;
  ioctl_errno : Trace -> Z -> Z -> Arg -> Z;
  errno_text : Z -> string
}.

Section Calls.

Variable sys : Sys.

Definition syscall_Open (path : string) (mode : Z) (t : Trace)
  : Result Z * Trace :=
  let r := open_result sys t path mode in (r, t ++ [Open path mode r]).

Definition ioctl (fd cmd : Z) (arg : Arg) (t : Trace) : Z * Trace :=
  let errno := ioctl_errno sys t fd cmd arg in
  (errno, t ++ [Ioctl fd cmd arg errno]).

Definition capabilities : list (Z * Z * string) :=
  [ (UI_SET_EVBIT, EV_REL, "EV_REL");
    (UI_SET_RELBIT, REL_WHEEL, "REL_WHEEL");
    (UI_SET_RELBIT, REL_HWHEEL, "REL_HWHEEL");
    (UI_SET_EVBIT, EV_SYN, "EV_SYN") ].

(** The loop of [configureDevice]. *)
Fixpoint setCapabilities (fd : Z) (caps : list (Z * Z * string)) (t : Trace)
  : error * Trace :=
  match caps with
  | [] => (None, t)
  | (cmd, value, name) :: rest =>
      let '(errno, t') := ioctl fd cmd (Value value) t in
      if negb (errno =? 0) then
        (Some ("failed to set " ++ name ++ ": " ++ errno_text sys errno)%string,
         t')
      else setCapabilities fd rest t'
  end.

Definition configureDevice (fd : Z) (t : Trace) : error * Trace :=
  setCapabilities fd capabilities t.

Definition theSetup : UinputSetup :=
  {| ID := {| Bustype := 0x03; Vendor := 0x1234; Product := 0x5678;
              Version := 1 |};
     Name := copy (repeat zero UINPUT_MAX_NAME_SIZE) "Trackball Scroll Device" |}.

Definition setupDevice (fd : Z) (t : Trace) : error * Trace :=
  let '(errno, t') := ioctl fd UI_DEV_SETUP (SetupPtr theSetup) t in
  if negb (errno =? 0) then
    (Some ("failed to setup device: " ++ errno_text sys errno)%string, t')
  else (None, t').

Definition createDevice (fd : Z) (t : Trace) : error * Trace :=
  let '(errno, t') := ioctl fd UI_DEV_CREATE (Value 0) t in
  if negb (errno =? 0) then
    (Some ("failed to create device: " ++ errno_text sys errno)%string, t')
  else (None, t').

Definition createScrollOnlyDevice (t : Trace) : (Z * error) * Trace :=
  match syscall_Open "/dev/uinput" (Z.lor O_WRONLY O_NONBLOCK) t with
  | (Err e, t0) => ((-1, Some ("failed to open /dev/uinput: " ++ e)%string), t0)
  | (Ok fd, t0) =>
      match configureDevice fd t0 with
      | (Some err, t1) => ((-1, Some err), t1 ++ [Close fd])
      | (None, t1) =>
          match setupDevice fd t1 with
          | (Some err, t2) => ((-1, Some err), t2 ++ [Close fd])
          | (None, t2) =>
              match createDevice fd t2 with
              | (Some err, t3) => ((-1, Some err), t3 ++ [Close fd])
              | (None, t3) => ((fd, None), t3 ++ [Sleep DEVICE_SETUP_DELAY])
              end
          end
      end
  end.

End Calls.

(** What a trace shows. *)
Definition closed (t : Trace) : list Z :=
  flat_map (fun c => match c with Close fd => [fd] | _ => [] end) t.

Definition requests (t : Trace) : list Z :=
  flat_map (fun c => match c with Ioctl _ cmd _ _ => [cmd] | _ => [] end) t.

Definition errnos (t : Trace) : list Z :=
  flat_map (fun c => match c with Ioctl _ _ _ errno => [errno] | _ => [] end) t.

(** Sample kernels: every call succeeds with descriptor 7; the request
    [bad] fails with error number 1. *)
Definition sys_ok : Sys :=
  {| open_result := fun _ _ _ => Ok 7;
     ioctl_errno := fun _ _ _ _ => 0;
     errno_text := fun _ => "operation not permitted" |}.

Definition sys_rejects (bad : Z) : Sys :=
  {| open_result := fun _ _ _ => Ok 7;
     ioctl_errno := fun _ _ cmd _ => if cmd =? bad then 1 else 0;
     errno_text := fun _ => "operation not permitted" |}.

End uinput.

(** ** What a world shows *)

Module Observe.

(** The requests of [close]: destroy, close of a descriptor, release. *)
Definition is_cleanup (e : Effect) : bool :=
  match e with
  | SysIoctl _ _ | SysClose _ | DevRelease _ => true
  | _ => false
  end.

Definition no_cleanup (w : World) : bool :=
  forallb (fun e => negb (is_cleanup e)) w.

Definition is_write_to (fd : Z) (e : Effect) : bool :=
  match e with
  | SysWrite fd' _ _ => fd' =? fd
  | _ => false
  end.

(** The records the virtual device received, without their time stamps:
    category, code and value of each successful write. *)
Definition written (w : World) : list (Z * Z * Z) :=
  flat_map (fun e =>
              match e with
              | SysWrite _ ev None => [(Type_ ev, Code ev, Value ev)]
              | _ => []
              end) w.

(** The two records of the frame of a command. *)
Definition frame (c : ScrollCommand) : list (Z * Z * Z) :=
  [ (EV_REL, if isHorizontal c then REL_HWHEEL else REL_WHEEL, scrollValue c);
    (EV_SYN, SYN_REPORT, 0) ].

(** The paths [evdev.Open] was called with, those it opened, and those
    closed again. *)
Definition attempted (w : World) : list string :=
  flat_map (fun e => match e with DevOpen p _ => [p] | _ => [] end) w.

Definition opened (w : World) : list string :=
  flat_map (fun e => match e with DevOpen p None => [p] | _ => [] end) w.

Definition closed (w : World) : list string :=
  flat_map (fun e => match e with FileClose p => [p] | _ => [] end) w.

Definition is_finite (x : float64) : bool :=
  match x with
  | S754_zero _ | S754_finite _ _ _ => true
  | S754_infinity _ | S754_nan => false
  end.

End Observe.

(** * Part II: properties *)

(** ** Arithmetic of [int32] *)

Module Int32Facts.

Import Int32.

Lemma in_rangeb_spec x : in_rangeb x = true <-> in_range x.
Proof.
  unfold in_rangeb, in_range, min_int, max_int.
  rewrite andb_true_iff, !Z.leb_le. tauto.
Qed.

Lemma wrap32_in_range x : in_range (wrap32 x).
Proof.
  unfold wrap32, in_range, min_int, max_int, modulus.
  pose proof (Z.mod_pos_bound (x + 2147483648) 4294967296 ltac:(lia)). lia.
Qed.

Lemma wrap32_id x : in_range x -> wrap32 x = x.
Proof.
  unfold wrap32, in_range, min_int, max_int, modulus. intros H.
  rewrite Z.mod_small by lia. lia.
Qed.

Lemma neg_min : neg min_int = min_int.
Proof. reflexivity. Qed.

Lemma neg_exact x : in_range x -> x <> min_int -> neg x = - x.
Proof.
  unfold neg, in_range, min_int, max_int. intros H Hm.
  apply wrap32_id. unfold in_range, min_int, max_int. lia.
Qed.

(** Negation on [int32] in one formula. *)
Lemma neg_cases x :
  in_range x -> neg x = if x =? min_int then min_int else - x.
Proof.
  intros H. destruct (Z.eqb_spec x min_int) as [->|Hm].
  - apply neg_min.
  - now apply neg_exact.
Qed.

Lemma neg_zero_iff x : in_range x -> (neg x = 0 <-> x = 0).
Proof.
  intros H. rewrite neg_cases by assumption.
  destruct (Z.eqb_spec x min_int) as [->|Hm]; unfold min_int; lia.
Qed.

End Int32Facts.

Lemma to_int32_in_range cvt x : Int32.in_range (to_int32 cvt x).
Proof.
  unfold to_int32. destruct (trunc x) as [z|].
  - destruct (Int32.in_rangeb z) eqn:E.
    + now apply Int32Facts.in_rangeb_spec.
    + apply Int32Facts.wrap32_in_range.
  - apply Int32Facts.wrap32_in_range.
Qed.

(** The defaults of the command line: a vertical motion of 20 scrolls by
    -6, one of 2 stays inside the dead zone. *)
Example default_vertical_20 :
  scrollCommands (Samples.env_ok 0) (Samples.scroller DEFAULT_SENSITIVITY 2)
    [evdev.mkInputEvent evdev.EV_REL evdev.REL_Y 20]
  = [ {| isHorizontal := false; scrollValue := -6 |} ].
Proof. reflexivity. Qed.

Example default_vertical_2 :
  scrollCommands (Samples.env_ok 0) (Samples.scroller DEFAULT_SENSITIVITY 2)
    [evdev.mkInputEvent evdev.EV_REL evdev.REL_Y 2]
  = [].
Proof. reflexivity. Qed.

(** ** The translation of a sample *)

Section Translation.

Variable env : Env.

Lemma scale_in_range s v : Int32.in_range (scale env s v).
Proof. apply to_int32_in_range. Qed.

(** The helper [abs] is the absolute value, except at the least [int32],
    which it returns unchanged. *)
Lemma abs_exact x :
  Int32.in_range x -> x <> Int32.min_int -> abs x = Z.abs x.
Proof.
  intros H Hm. unfold abs. destruct (Z.ltb_spec x 0).
  - rewrite Int32Facts.neg_exact by assumption. lia.
  - lia.
Qed.

Lemma abs_min_int : abs Int32.min_int = Int32.min_int.
Proof. reflexivity. Qed.

(** [handleEvents] makes one call of [sendScrollEvent] per command of
    the batch, in order. *)
Lemma handleEvents_emitAll ts events w :
  handleEvents env ts events w = emitAll env ts (scrollCommands env ts events) w.
Proof.
  revert w. induction events as [|event rest IH]; intros w; simpl.
  - reflexivity.
  - destruct (scrollCommand env ts event) as [c|]; simpl.
    + destruct (sendScrollEvent env ts (isHorizontal c) (scrollValue c) w)
        as [err w'] eqn:E. simpl. apply IH.
    + apply IH.
Qed.

(** The gate of [scrollCommand] for the two axes, as propositions. *)
Lemma scrollCommand_REL_X ts v :
  scrollCommand env ts (evdev.mkInputEvent evdev.EV_REL evdev.REL_X v)
  = if (abs v >? deadZone ts) && negb (scale env (sensitivity ts) v =? 0)
    then Some {| isHorizontal := true;
                 scrollValue := scale env (sensitivity ts) v |}
    else None.
Proof. reflexivity. Qed.

Lemma scrollCommand_REL_Y ts v :
  scrollCommand env ts (evdev.mkInputEvent evdev.EV_REL evdev.REL_Y v)
  = if (abs v >? deadZone ts)
       && negb (Int32.neg (scale env (sensitivity ts) v) =? 0)
    then Some {| isHorizontal := false;
                 scrollValue := Int32.neg (scale env (sensitivity ts) v) |}
    else None.
Proof. reflexivity. Qed.

Lemma neg_scale_eqb_0 s v :
  (Int32.neg (scale env s v) =? 0) = (scale env s v =? 0).
Proof.
  pose proof (Int32Facts.neg_zero_iff _ (scale_in_range s v)) as H.
  destruct (Z.eqb_spec (Int32.neg (scale env s v)) 0) as [E|E];
    destruct (Z.eqb_spec (scale env s v) 0) as [F|F]; tauto.
Qed.

(** C1 (as amended).  For a sample whose raw magnitude is an [int32]
    other than -2147483648: a Scroll Command is produced if and only if
    the category is relative motion, the code is the X or the Y axis, the
    absolute value of the raw magnitude is strictly greater than the dead
    zone, and the scaled magnitude [int32(float64(raw) * sensitivity)] is
    not zero.  When produced, exactly one command is emitted: on the X
    axis with the scaled magnitude, on the Y axis with its [int32]
    negation; and [handleEvents] makes exactly the calls of
    [sendScrollEvent] for these commands. *)
Theorem C1_emission_gate ts event w :
  Int32.in_range (evdev.Value event) ->
  evdev.Value event <> Int32.min_int ->
  let v := evdev.Value event in
  let scaled := scale env (sensitivity ts) v in
  let gate :=
    evdev.Type_ event = evdev.EV_REL
    /\ (evdev.Code event = evdev.REL_X \/ evdev.Code event = evdev.REL_Y)
    /\ deadZone ts < Z.abs v
    /\ scaled <> 0 in
  ((exists c, scrollCommands env ts [event] = [c]) <-> gate)
  /\ (~ gate <-> scrollCommands env ts [event] = [])
  /\ (forall c, scrollCommands env ts [event] = [c] ->
        c = {| isHorizontal := (evdev.Code event =? evdev.REL_X);
               scrollValue :=
                 if evdev.Code event =? evdev.REL_X then scaled
                 else Int32.neg scaled |})
  /\ handleEvents env ts [event] w
     = emitAll env ts (scrollCommands env ts [event]) w.
Proof.
  intros Hr Hm v scaled gate.
  assert (Hcases :
    (gate /\ scrollCommands env ts [event]
             = [ {| isHorizontal := (evdev.Code event =? evdev.REL_X);
                    scrollValue :=
                      if evdev.Code event =? evdev.REL_X then scaled
                      else Int32.neg scaled |} ])
    \/ (~ gate /\ scrollCommands env ts [event] = [])).
  { subst gate scaled v. destruct event as [ty code val]. simpl in *.
    unfold scrollCommand. simpl.
    rewrite (abs_exact val Hr Hm).
    unfold evdev.EV_REL, evdev.REL_X, evdev.REL_Y.
    destruct (Z.eqb_spec ty 2) as [Ety|Ety]; simpl; [|right; tauto].
    destruct (Z.eqb_spec code 0) as [Ex|Ex]; simpl.
    - destruct (Z.gtb_spec (Z.abs val) (deadZone ts)) as [Hd|Hd]; simpl;
        [|right; split; [lia | reflexivity]].
      destruct (Z.eqb_spec (scale env (sensitivity ts) val) 0) as [Hs|Hs];
        simpl; [right; tauto | left; tauto].
    - destruct (Z.eqb_spec code 1) as [Ey|Ey]; simpl; [|right; split; [lia|reflexivity]].
      destruct (Z.gtb_spec (Z.abs val) (deadZone ts)) as [Hd|Hd]; simpl;
        [|right; split; [lia | reflexivity]].
      rewrite neg_scale_eqb_0.
      destruct (Z.eqb_spec (scale env (sensitivity ts) val) 0) as [Hs|Hs];
        simpl; [right; tauto | left; tauto]. }
  split; [|split; [|split]].
  - destruct Hcases as [[G E]|[G E]]; rewrite E; split; intros H.
    + exact G.
    + eexists; reflexivity.
    + destruct H as [c Hc]; discriminate.
    + contradiction.
  - destruct Hcases as [[G E]|[G E]]; rewrite E; split; intros H.
    + contradiction.
    + discriminate.
    + reflexivity.
    + exact G.
  - intros c Hc. destruct Hcases as [[G E]|[G E]]; rewrite E in Hc.
    + now inversion Hc.
    + discriminate.
  - apply handleEvents_emitAll.
Qed.

(** C2 (as amended).  A Y sample produces a Scroll Command exactly when
    the X sample of the same raw magnitude does, and its magnitude is the
    [int32] negation of the X command's: the opposite number, except
    that -2147483648 stays -2147483648. *)
Theorem C2_vertical_inverts_horizontal ts v :
  scrollCommand env ts (evdev.mkInputEvent evdev.EV_REL evdev.REL_Y v)
  = option_map
      (fun c => {| isHorizontal := false;
                   scrollValue :=
                     if scrollValue c =? Int32.min_int then Int32.min_int
                     else - scrollValue c |})
      (scrollCommand env ts (evdev.mkInputEvent evdev.EV_REL evdev.REL_X v)).
Proof.
  rewrite scrollCommand_REL_X, scrollCommand_REL_Y, neg_scale_eqb_0.
  destruct ((abs v >? deadZone ts)
            && negb (scale env (sensitivity ts) v =? 0)); simpl.
  - now rewrite (Int32Facts.neg_cases _ (scale_in_range (sensitivity ts) v)).
  - reflexivity.
Qed.

(** C10.  The helper [abs] returns -2147483648, a negative number, at
    -2147483648; so with a dead zone that is not negative no Scroll
    Command is produced for a sample of that raw magnitude, whatever its
    category, code and the sensitivity, and [handleEvents] emits nothing
    for it. *)
Theorem C10_min_int_never_emitted ts ty code w :
  0 <= deadZone ts ->
  abs Int32.min_int = Int32.min_int
  /\ abs Int32.min_int < 0
  /\ scrollCommand env ts (evdev.mkInputEvent ty code Int32.min_int) = None
  /\ handleEvents env ts [evdev.mkInputEvent ty code Int32.min_int] w = w.
Proof.
  intros Hd.
  assert (Hgate : (abs Int32.min_int >? deadZone ts) = false).
  { rewrite abs_min_int. unfold Int32.min_int.
    destruct (Z.gtb_spec (-2147483648) (deadZone ts)); [lia | reflexivity]. }
  assert (Hnone :
    scrollCommand env ts (evdev.mkInputEvent ty code Int32.min_int) = None).
  { unfold scrollCommand. simpl evdev.Type_. simpl evdev.Code.
    simpl evdev.Value. rewrite Hgate. simpl.
    destruct (ty =? evdev.EV_REL); simpl; [|reflexivity].
    destruct (code =? evdev.REL_X); simpl; [reflexivity|].
    destruct (code =? evdev.REL_Y); reflexivity. }
  split; [|split; [|split]].
  - reflexivity.
  - reflexivity.
  - exact Hnone.
  - simpl. now rewrite Hnone.
Qed.

End Translation.

Lemma C1_emission_gate_witness :
  Int32.in_range (evdev.Value (Samples.sampleY 20))
  /\ evdev.Value (Samples.sampleY 20) <> Int32.min_int
  /\ forall c,
       scrollCommands (Samples.env_ok 0)
         (Samples.scroller DEFAULT_SENSITIVITY 2) [Samples.sampleY 20] = [c] ->
       c = {| isHorizontal := false; scrollValue := -6 |}.
Proof.
  assert (Hr : Int32.in_range (evdev.Value (Samples.sampleY 20))).
  { unfold Int32.in_range, Int32.min_int, Int32.max_int. simpl. lia. }
  assert (Hm : evdev.Value (Samples.sampleY 20) <> Int32.min_int).
  { unfold Int32.min_int. simpl. lia. }
  split; [exact Hr | split; [exact Hm |]].
  exact (proj1 (proj2 (proj2
           (C1_emission_gate (Samples.env_ok 0)
              (Samples.scroller DEFAULT_SENSITIVITY 2)
              (Samples.sampleY 20) [] Hr Hm)))).
Defined.

(** C1 as stated fails on the Y axis: with sensitivity 1.0 and dead zone 0
    a vertical motion of 10 passes the gate and scales to 10, and the one
    command emitted has magnitude -10. *)
Lemma C1_counterexample_vertical :
  (evdev.Type_ (Samples.sampleY 10) = evdev.EV_REL
   /\ evdev.Code (Samples.sampleY 10) = evdev.REL_Y
   /\ deadZone (Samples.scroller one 0) < Z.abs (evdev.Value (Samples.sampleY 10))
   /\ scale (Samples.env_ok 0) one (evdev.Value (Samples.sampleY 10)) = 10)
  /\ scrollCommands (Samples.env_ok 0) (Samples.scroller one 0)
       [Samples.sampleY 10]
     = [ {| isHorizontal := false; scrollValue := -10 |} ]
  /\ scrollCommands (Samples.env_ok 0) (Samples.scroller one 0)
       [Samples.sampleY 10]
     <> [ {| isHorizontal := false;
             scrollValue :=
               scale (Samples.env_ok 0) one (evdev.Value (Samples.sampleY 10)) |} ].
Proof.
  split; [|split].
  - split; [reflexivity | split; [reflexivity | split; [simpl; lia | reflexivity]]].
  - reflexivity.
  - vm_compute. discriminate.
Qed.

(** The gate of C1 also differs from the code at the raw magnitude
    -2147483648, where [abs] overflows: with sensitivity 1.0 and dead zone
    0 the absolute value 2147483648 exceeds the dead zone and the scaled
    magnitude is -2147483648, yet nothing is emitted. *)
Lemma emission_gate_at_min_int :
  deadZone (Samples.scroller one 0) < Z.abs Int32.min_int
  /\ scale (Samples.env_ok 0) one Int32.min_int = -2147483648
  /\ scrollCommands (Samples.env_ok 0) (Samples.scroller one 0)
       [Samples.sampleX Int32.min_int] = [].
Proof.
  split; [|split].
  - simpl. lia.
  - reflexivity.
  - reflexivity.
Qed.

(** C2 as stated fails where the scaled magnitude is -2147483648: with
    sensitivity 2.0 and dead zone 0 the raw magnitude -1073741824 gives the
    X command and the Y command the same magnitude, -2147483648, which is
    not its own opposite. *)
Lemma C2_counterexample_min_int :
  scrollCommand (Samples.env_ok 0) (Samples.scroller two 0)
    (Samples.sampleX (-1073741824))
  = Some {| isHorizontal := true; scrollValue := -2147483648 |}
  /\ scrollCommand (Samples.env_ok 0) (Samples.scroller two 0)
       (Samples.sampleY (-1073741824))
     = Some {| isHorizontal := false; scrollValue := -2147483648 |}
  /\ -2147483648 <> - (-2147483648).
Proof.
  split; [|split].
  - reflexivity.
  - reflexivity.
  - lia.
Qed.

(** The product -1073741824 * 2.0 is exactly -2147483648, inside [int32]:
    the value above does not depend on the implementation. *)
Lemma scale_two_exact cvt :
  to_int32 cvt (mul (of_int32 (-1073741824)) two) = -2147483648.
Proof. reflexivity. Qed.

Lemma C10_min_int_never_emitted_witness :
  0 <= deadZone (Samples.scroller one 0)
  /\ scrollCommand (Samples.env_ok 0) (Samples.scroller one 0)
       (Samples.sampleX Int32.min_int) = None.
Proof.
  assert (Hd : 0 <= deadZone (Samples.scroller one 0)) by (simpl; lia).
  split; [exact Hd |].
  exact (proj1 (proj2 (proj2
           (C10_min_int_never_emitted (Samples.env_ok 0)
              (Samples.scroller one 0) evdev.EV_REL evdev.REL_X [] Hd)))).
Defined.

(** ** Emission *)

Section Emission.

Variable env : Env.

(** C5.  One call of [sendScrollEvent] writes two records to the
    virtual device, in this order: the relative-motion record with the
    code of the axis ([REL_HWHEEL] or [REL_WHEEL]) and the magnitude, then
    the [SYN_REPORT] record with value 0.  When the first write fails the
    call returns its error after that single attempt; when the second
    fails it returns that error; no write is attempted again. *)
Theorem C5_sendScrollEvent_frame ts (horizontal : bool) value w :
  let fd := virtualFd ts in
  let now := {| Sec := time_Now env w; Usec := 0 |} in
  let rel := {| Time := now; Type_ := EV_REL;
                Code := if horizontal then REL_HWHEEL else REL_WHEEL;
                Value := value |} in
  let syn := {| Time := now; Type_ := EV_SYN; Code := SYN_REPORT;
                Value := 0 |} in
  (write_error env w fd rel = None ->
   write_error env (w ++ [SysWrite fd rel None]) fd syn = None ->
   sendScrollEvent env ts horizontal value w
   = (None, w ++ [SysWrite fd rel None; SysWrite fd syn None]))
  /\ (forall e,
        write_error env w fd rel = Some e ->
        sendScrollEvent env ts horizontal value w
        = (Some ("failed to write event: " ++ e)%string,
           w ++ [SysWrite fd rel (Some e)]))
  /\ (forall e,
        write_error env w fd rel = None ->
        write_error env (w ++ [SysWrite fd rel None]) fd syn = Some e ->
        sendScrollEvent env ts horizontal value w
        = (Some ("failed to write event: " ++ e)%string,
           w ++ [SysWrite fd rel None; SysWrite fd syn (Some e)])).
Proof.
  intros fd now rel syn.
  unfold sendScrollEvent, scrollEvents, writeEvents, syscall_Write.
  fold fd. fold now. fold rel. fold syn.
  split; [|split].
  - intros H1 H2. rewrite H1, H2. now rewrite <- app_assoc.
  - intros e H1. now rewrite H1.
  - intros e H1 H2. rewrite H1, H2. now rewrite <- app_assoc.
Qed.

End Emission.

Lemma C5_sendScrollEvent_frame_witness :
  sendScrollEvent (Samples.env_ok 0) (Samples.scroller one 0) false (-10) []
  = (None,
     [ SysWrite 5 (mkInputEvent (mkTimeval 1700000000 0) EV_REL REL_WHEEL (-10)) None;
       SysWrite 5 (mkInputEvent (mkTimeval 1700000000 0) EV_SYN SYN_REPORT 0) None ])
  /\ sendScrollEvent (Samples.env_write_fails 0) (Samples.scroller one 0) true 10 []
     = (Some "failed to write event: no such device"%string,
        [ SysWrite 5 (mkInputEvent (mkTimeval 1700000000 0) EV_REL REL_HWHEEL 10)
            (Some "no such device"%string) ])
  /\ sendScrollEvent (Samples.env_sync_fails 0) (Samples.scroller one 0) true 10 []
     = (Some "failed to write event: no such device"%string,
        [ SysWrite 5 (mkInputEvent (mkTimeval 1700000000 0) EV_REL REL_HWHEEL 10) None;
          SysWrite 5 (mkInputEvent (mkTimeval 1700000000 0) EV_SYN SYN_REPORT 0)
            (Some "no such device"%string) ]).
Proof.
  split; [|split].
  - exact (proj1 (C5_sendScrollEvent_frame (Samples.env_ok 0)
                    (Samples.scroller one 0) false (-10) [])
             eq_refl eq_refl).
  - exact (proj1 (proj2 (C5_sendScrollEvent_frame (Samples.env_write_fails 0)
                           (Samples.scroller one 0) true 10 []))
             "no such device"%string eq_refl).
  - exact (proj2 (proj2 (C5_sendScrollEvent_frame (Samples.env_sync_fails 0)
                           (Samples.scroller one 0) true 10 []))
             "no such device"%string eq_refl eq_refl).
Defined.

(** ** The event loop and the life cycle *)

Section Lifecycle.

Variable env : Env.

(** The only error [processEvents] returns is that of a failed read:
    the errors of [sendScrollEvent] never leave [handleEvents]. *)
Lemma processEvents_error_is_read_error fuel ts w err w' :
  processEvents env fuel ts w = Done (Some err) w' ->
  exists e w0,
    err = ("error reading events: " ++ e)%string
    /\ w' = w0 ++ [DevRead (Some e)].
Proof.
  revert w. induction fuel as [|fuel IH]; intros w; simpl.
  - discriminate.
  - destruct (stop_closed env w); [discriminate|].
    destruct (device ts); [|discriminate].
    destruct (read_result env w) as [events|e].
    + apply IH.
    + intros H. inversion H. now exists e, w.
Qed.

(** An error of [processEvents] ends [main] with status 1 through
    [log.Fatalf]: the message is its last effect, [close] has not run. *)
Lemma main_running_error scroller dev fuel w err w' :
  processEvents env fuel scroller
    (w ++ [Print ("Ready: " ++ evdev.Name dev ++ " | Press Ctrl+C to exit" ++ nl)%string])
  = Done (Some err) w' ->
  main_running env scroller dev fuel w
  = Done 1 (w' ++ [Print ("Error processing events: " ++ err)%string]).
Proof.
  intros H. cbv beta iota zeta delta [main_running]. now rewrite H.
Qed.

(** C6.  A closed stop channel ends the loop at its next check: when
    it is closed at the top of the loop, [processEvents] returns [nil] and
    does nothing more; when it gets closed at any moment of a turn in
    flight ([mid] is the world at that moment), the turn is completed and
    [processEvents] returns [nil] right after it, with no further read or
    write.  [main] then prints its last line, runs [close] (destroy and
    close of the virtual device, release of the grab), and ends with
    status 0. *)
Theorem C6_stop_ends_loop ts fuel w :
  (stop_closed env w = true ->
   processEvents env (S fuel) ts w = Done None w)
  /\ (forall d events mid rest,
        one_shot env ->
        stop_closed env w = false ->
        device ts = Some d ->
        read_result env w = Ok events ->
        handleEvents env ts events (w ++ [DevRead None]) = mid ++ rest ->
        stop_closed env mid = true ->
        processEvents env (S (S fuel)) ts w = Done None (mid ++ rest))
  /\ (forall dev w',
        0 <= virtualFd ts ->
        device ts = Some dev ->
        processEvents env fuel ts
          (w ++ [Print ("Ready: " ++ evdev.Name dev
                          ++ " | Press Ctrl+C to exit" ++ nl)%string])
        = Done None w' ->
        main_running env ts dev fuel w
        = Done 0 (w' ++ [Print ("Trackball scroller stopped." ++ nl)%string;
                         SysIoctl (virtualFd ts) UI_DEV_DESTROY;
                         SysClose (virtualFd ts);
                         DevRelease dev])).
Proof.
  split; [|split].
  - intros H. simpl. now rewrite H.
  - intros d events mid rest Hone Hw Hd Hr Hh Hmid.
    cbn [processEvents]. rewrite Hw, Hd, Hr, Hh.
    now rewrite (Hone mid rest Hmid).
  - intros dev w' Hfd Hdev H.
    cbv beta iota zeta delta [main_running]. rewrite H.
    cbv beta iota zeta delta [close InputDevice_Release]. rewrite Hdev.
    destruct (Z.leb_spec 0 (virtualFd ts)); [|lia].
    now rewrite <- !app_assoc.
Qed.

(** C7.  [close] never panics.  With a negative descriptor it issues
    neither the destroy request nor the close of the descriptor; with a
    nil device it releases nothing; with both it does nothing at all. *)
Theorem C7_close_guarded ts w :
  (exists w', close ts w = Done tt w')
  /\ (virtualFd ts < 0 -> device ts = None -> close ts w = Done tt w)
  /\ (forall d,
        virtualFd ts < 0 -> device ts = Some d ->
        close ts w = Done tt (w ++ [DevRelease d]))
  /\ (0 <= virtualFd ts -> device ts = None ->
      close ts w
      = Done tt (w ++ [SysIoctl (virtualFd ts) UI_DEV_DESTROY;
                       SysClose (virtualFd ts)])).
Proof.
  unfold close, InputDevice_Release.
  split; [|split; [|split]].
  - destruct (device ts); eexists; reflexivity.
  - intros Hfd Hd. rewrite Hd.
    destruct (Z.leb_spec 0 (virtualFd ts)); [lia | reflexivity].
  - intros d Hfd Hd. rewrite Hd.
    destruct (Z.leb_spec 0 (virtualFd ts)); [lia | reflexivity].
  - intros Hfd Hd. rewrite Hd.
    destruct (Z.leb_spec 0 (virtualFd ts)); [reflexivity | lia].
Qed.

End Lifecycle.

Lemma env_ok_one_shot n : one_shot (Samples.env_ok n).
Proof.
  intros w w'. simpl. unfold Samples.stop_after.
  rewrite !Nat.leb_le, length_app. lia.
Qed.

Lemma C6_stop_ends_loop_witness :
  processEvents (Samples.env_ok 3) 1 (Samples.scroller one 0)
    [Print "a"%string; Print "b"%string; Print "c"%string]
  = Done None [Print "a"%string; Print "b"%string; Print "c"%string]
  /\ processEvents (Samples.env_ok 3) 2 (Samples.scroller one 0) []
     = Done None
         ([DevRead None;
           SysWrite 5 (mkInputEvent (mkTimeval 1700000000 0) EV_REL REL_WHEEL (-20)) None;
           SysWrite 5 (mkInputEvent (mkTimeval 1700000000 0) EV_SYN SYN_REPORT 0) None]
          ++ [SysWrite 5 (mkInputEvent (mkTimeval 1700000000 0) EV_REL REL_HWHEEL 10) None;
              SysWrite 5 (mkInputEvent (mkTimeval 1700000000 0) EV_SYN SYN_REPORT 0) None])
  /\ main_running (Samples.env_ok 1) (Samples.scroller one 0) Samples.trackball 1 []
     = Done 0
         [Print ("Ready: Kensington Expert Mouse | Press Ctrl+C to exit" ++ nl)%string;
          Print ("Trackball scroller stopped." ++ nl)%string;
          SysIoctl 5 UI_DEV_DESTROY; SysClose 5; DevRelease Samples.trackball].
Proof.
  split; [|split].
  - exact (proj1 (C6_stop_ends_loop (Samples.env_ok 3) (Samples.scroller one 0)
                    0%nat [Print "a"%string; Print "b"%string; Print "c"%string])
             eq_refl).
  - exact (proj1 (proj2 (C6_stop_ends_loop (Samples.env_ok 3)
                           (Samples.scroller one 0) 0%nat []))
             Samples.trackball Samples.batch _ _
             (env_ok_one_shot 3) eq_refl eq_refl eq_refl eq_refl eq_refl).
  - exact (proj2 (proj2 (C6_stop_ends_loop (Samples.env_ok 1)
                           (Samples.scroller one 0) 1%nat []))
             Samples.trackball _ ltac:(simpl; lia) eq_refl eq_refl).
Defined.

(** The whole of [main] on a clean stop: the channel is closed during
    the first turn, the turn is completed, and the effects end with the
    last line and the cleanup. *)
Example main_clean_stop :
  main (Samples.env_ok 9) one 0 "/dev/input/event3" 2 []
  = Done 0
      [ Print ("Trackball Scroll - Converting trackball movement to scroll events" ++ nl)%string;
        PrintSettings "/dev/input/event3" one 0;
        DevOpen "/dev/input/event3" None;
        DevGrab Samples.trackball None;
        CreateVirtualDevice (Ok 5);
        Print ("Ready: Kensington Expert Mouse | Press Ctrl+C to exit" ++ nl)%string;
        DevRead None;
        SysWrite 5 (mkInputEvent (mkTimeval 1700000000 0) EV_REL REL_WHEEL (-20)) None;
        SysWrite 5 (mkInputEvent (mkTimeval 1700000000 0) EV_SYN SYN_REPORT 0) None;
        SysWrite 5 (mkInputEvent (mkTimeval 1700000000 0) EV_REL REL_HWHEEL 10) None;
        SysWrite 5 (mkInputEvent (mkTimeval 1700000000 0) EV_SYN SYN_REPORT 0) None;
        Print ("Trackball scroller stopped." ++ nl)%string;
        SysIoctl 5 UI_DEV_DESTROY; SysClose 5; DevRelease Samples.trackball ].
Proof. reflexivity. Qed.

Lemma C7_close_guarded_witness :
  close {| device := None; virtualFd := -1;
           sensitivity := DEFAULT_SENSITIVITY; deadZone := 2 |} []
  = Done tt [].
Proof.
  exact (proj1 (proj2 (C7_close_guarded
                         {| device := None; virtualFd := -1;
                            sensitivity := DEFAULT_SENSITIVITY; deadZone := 2 |} []))
           ltac:(simpl; lia) eq_refl).
Defined.

(** C3: what the code does when an emission fails.  Every write to the
    virtual device fails; the batch holds a Y sample (20) and an X sample
    (10), sensitivity 1.0, dead zone 0.  After the failed emission of the
    first command [handleEvents] goes on to translate and emit the second;
    [processEvents] goes on until the stop channel is closed and returns
    [nil]; [main] runs its cleanup and ends with status 0: no error is
    recorded. *)
Theorem C3_emission_error_dropped :
  handleEvents (Samples.env_write_fails 9) (Samples.scroller one 0)
    Samples.batch []
  = [ SysWrite 5 (mkInputEvent (mkTimeval 1700000000 0) EV_REL REL_WHEEL (-20))
        (Some "no such device"%string);
      SysWrite 5 (mkInputEvent (mkTimeval 1700000000 0) EV_REL REL_HWHEEL 10)
        (Some "no such device"%string) ]
  /\ processEvents (Samples.env_write_fails 3) 2 (Samples.scroller one 0) []
     = Done None
         [ DevRead None;
           SysWrite 5 (mkInputEvent (mkTimeval 1700000000 0) EV_REL REL_WHEEL (-20))
             (Some "no such device"%string);
           SysWrite 5 (mkInputEvent (mkTimeval 1700000000 0) EV_REL REL_HWHEEL 10)
             (Some "no such device"%string) ]
  /\ main (Samples.env_write_fails 9) one 0 "/dev/input/event3" 2 []
     = Done 0
         [ Print ("Trackball Scroll - Converting trackball movement to scroll events" ++ nl)%string;
           PrintSettings "/dev/input/event3" one 0;
           DevOpen "/dev/input/event3" None;
           DevGrab Samples.trackball None;
           CreateVirtualDevice (Ok 5);
           Print ("Ready: Kensington Expert Mouse | Press Ctrl+C to exit" ++ nl)%string;
           DevRead None;
           SysWrite 5 (mkInputEvent (mkTimeval 1700000000 0) EV_REL REL_WHEEL (-20))
             (Some "no such device"%string);
           SysWrite 5 (mkInputEvent (mkTimeval 1700000000 0) EV_REL REL_HWHEEL 10)
             (Some "no such device"%string);
           Print ("Trackball scroller stopped." ++ nl)%string;
           SysIoctl 5 UI_DEV_DESTROY; SysClose 5; DevRelease Samples.trackball ].
Proof.
  split; [|split]; reflexivity.
Qed.

(** C4: what the code does on a read error.  Both devices have been
    acquired and the first read of the grabbed device fails: [main] prints
    the error and ends with status 1; neither the destroy request, nor the
    close of the virtual device, nor the release of the grab is among its
    effects. *)
Theorem C4_read_error_skips_cleanup :
  main Samples.env_read_fails DEFAULT_SENSITIVITY 2 "/dev/input/event3" 1 []
  = Done 1
      [ Print ("Trackball Scroll - Converting trackball movement to scroll events" ++ nl)%string;
        PrintSettings "/dev/input/event3" DEFAULT_SENSITIVITY 2;
        DevOpen "/dev/input/event3" None;
        DevGrab Samples.trackball None;
        CreateVirtualDevice (Ok 5);
        Print ("Ready: Kensington Expert Mouse | Press Ctrl+C to exit" ++ nl)%string;
        DevRead (Some "no such device"%string);
        Print "Error processing events: error reading events: no such device"%string ].
Proof. reflexivity. Qed.

(** ** Device discovery *)

Module StringsFacts.

Import strings.

Lemma HasPrefix_spec prefix : forall s,
  HasPrefix s prefix = true <-> exists suf, s = (prefix ++ suf)%string.
Proof.
  induction prefix as [|p prefix IH]; intros s; destruct s as [|c s]; simpl.
  - split; [intros _; now exists EmptyString | reflexivity].
  - split; [intros _; now exists (String c s) | reflexivity].
  - split; [discriminate | intros [suf H]; discriminate].
  - idtac.
    + rewrite andb_true_iff, Ascii.eqb_eq, IH. split.
      * intros [-> [suf ->]]. now exists suf.
      * intros [suf H]. inversion H. split; [reflexivity | now exists suf].
Qed.

(** [Contains] finds exactly the occurrences of [substr] within [s]. *)
Lemma Contains_spec substr : forall s,
  Contains s substr = true
  <-> exists pre suf, s = (pre ++ substr ++ suf)%string.
Proof.
  induction s as [|c s IH].
  - cbn [Contains]. rewrite orb_false_r, HasPrefix_spec. split.
    + intros [suf H]. now exists EmptyString, suf.
    + intros [pre [suf H]]. destruct pre; simpl in H.
      * now exists suf.
      * discriminate.
  - cbn [Contains]. rewrite orb_true_iff, HasPrefix_spec, IH. split.
    + intros [[suf H]|[pre [suf H]]].
      * now exists EmptyString, suf.
      * exists (String c pre), suf. simpl. now rewrite H.
    + intros [pre [suf H]]. destruct pre as [|c' pre]; simpl in H.
      * left. now exists suf.
      * right. inversion H. now exists pre, suf.
Qed.

Lemma lower_byte_idempotent c : lower_byte (lower_byte c) = lower_byte c.
Proof. destruct c as [[] [] [] [] [] [] [] []]; reflexivity. Qed.

Lemma lower_byte_ascii c :
  (N_of_ascii (lower_byte c) <? 128)%N = (N_of_ascii c <? 128)%N.
Proof. destruct c as [[] [] [] [] [] [] [] []]; reflexivity. Qed.

Lemma isASCII_lower s : isASCII (map_bytes lower_byte s) = isASCII s.
Proof.
  induction s as [|c s IH]; simpl; [reflexivity|].
  now rewrite lower_byte_ascii, IH.
Qed.

Lemma map_lower_idempotent s :
  map_bytes lower_byte (map_bytes lower_byte s) = map_bytes lower_byte s.
Proof.
  induction s as [|c s IH]; simpl; [reflexivity|].
  now rewrite lower_byte_idempotent, IH.
Qed.

End StringsFacts.

Section Discovery.

Variable env : Env.

Lemma matchesKeyword_spec name keywords :
  matchesKeyword name keywords = true
  <-> exists keyword,
        In keyword keywords /\ strings.Contains name keyword = true.
Proof.
  induction keywords as [|k rest IH]; simpl.
  - split; [discriminate | intros [kw [[] _]]].
  - destruct (strings.Contains name k) eqn:E.
    + split; [intros _; exists k; auto | reflexivity].
    + rewrite IH. split.
      * intros [kw [Hin Hc]]. exists kw; auto.
      * intros [kw [[->|Hin] Hc]]; [congruence | exists kw; auto].
Qed.

(** Two ASCII names that differ only in the case of their letters are
    classified alike. *)
Lemma isTrackballDevice_case_insensitive n1 n2 :
  strings.isASCII n1 = true -> strings.isASCII n2 = true ->
  strings.map_bytes strings.lower_byte n1
  = strings.map_bytes strings.lower_byte n2 ->
  isTrackballDevice env n1 = isTrackballDevice env n2.
Proof.
  intros H1 H2 E. unfold isTrackballDevice, strings.ToLower.
  now rewrite H1, H2, E.
Qed.

(** C8.  The keywords are "trackball", "expert mouse", "orbit" and
    "slimblade", and a device is classified as a trackball if and only if
    one of them occurs in the lower-cased form of its name.  "Kensington
    Expert Mouse" is classified as a trackball, "Generic USB Mouse" is
    not. *)
Theorem C8_isTrackballDevice deviceName :
  (isTrackballDevice env deviceName = true
   <-> exists keyword pre suf,
         In keyword
           [ "trackball"; "expert mouse"; "orbit"; "slimblade" ]%string
         /\ strings.ToLower (unicode_lower env) deviceName
            = (pre ++ keyword ++ suf)%string)
  /\ isTrackballDevice env "Kensington Expert Mouse" = true
  /\ isTrackballDevice env "Generic USB Mouse" = false.
Proof.
  split; [|split; reflexivity].
  unfold isTrackballDevice. rewrite matchesKeyword_spec.
  fold trackballKeywords. split.
  - intros [kw [Hin Hc]]. apply StringsFacts.Contains_spec in Hc.
    destruct Hc as [pre [suf Hc]]. now exists kw, pre, suf.
  - intros [kw [pre [suf [Hin Hc]]]]. exists kw. split; [exact Hin|].
    apply StringsFacts.Contains_spec. now exists pre, suf.
Qed.

(** The scan collects, in the order of the node numbers, the paths of
    the nodes that open and carry the name of a trackball. *)
Lemma scanDevices_paths n : forall i acc w,
  fst (scanDevices env n i acc w)
  = acc ++ map devicePathOf (filter (trackballNode env) (seq i n)).
Proof.
  induction n as [|n IH]; intros i acc w; simpl.
  - now rewrite app_nil_r.
  - unfold trackballNode at 1.
    destruct (open_result env (devicePathOf i)) as [dev|e].
    + destruct (isTrackballDevice env (evdev.Name dev)); rewrite IH.
      * simpl. now rewrite <- app_assoc.
      * reflexivity.
    + now rewrite IH.
Qed.

Lemma scan_result_paths n w :
  fst (let '(trackballPaths, w') := scanDevices env n 0 [] w in
       ((trackballPaths, @None string), w'))
  = (map devicePathOf (filter (trackballNode env) (seq 0 n)), None).
Proof.
  pose proof (scanDevices_paths n 0 [] w) as H.
  destruct (scanDevices env n 0 [] w) as [paths w'].
  cbn [fst app] in H. cbn [fst]. now rewrite H.
Qed.

Lemma findTrackballDevices_paths w :
  fst (findTrackballDevices env w)
  = (map devicePathOf
       (filter (trackballNode env) (seq 0 MAX_EVENT_DEVICES)), None).
Proof. exact (scan_result_paths MAX_EVENT_DEVICES w). Qed.

(** With "auto", [selectDevice] returns the first path found, or its
    error when no path is found. *)
Lemma selectDevice_auto w :
  fst (selectDevice env "auto" w)
  = match map devicePathOf
            (filter (trackballNode env) (seq 0 MAX_EVENT_DEVICES)) with
    | [] =>
        (""%string,
         Some "no trackball devices found. Try to manually add a device with -device"%string)
    | first :: _ => (first, None)
    end.
Proof.
  unfold selectDevice. cbn [String.eqb Ascii.eqb Bool.eqb negb].
  cbv beta iota.
  pose proof (findTrackballDevices_paths
                (w ++ [Print ("Detecting trackball devices..." ++ nl)%string]))
    as H.
  revert H.
  generalize (map devicePathOf
                (filter (trackballNode env) (seq 0 MAX_EVENT_DEVICES))).
  intros found H.
  destruct (findTrackballDevices env
              (w ++ [Print ("Detecting trackball devices..." ++ nl)%string]))
    as [[trackballs err] w2].
  cbn [fst] in H. injection H as Ht He. subst trackballs err.
  destruct found; reflexivity.
Qed.

(** C9.  A path other than "auto" is returned as it is, and nothing is
    scanned (the world is unchanged).  For "auto", with [found] the paths
    of the trackball nodes among the nodes 0 to 31 in the order of their
    numbers: when [found] is empty [selectDevice] returns an error, and
    [main] ends on it with status 1 before it opens any device; otherwise
    [selectDevice] returns the first path of [found]. *)
Theorem C9_selectDevice devicePath w :
  (devicePath <> "auto"%string ->
   selectDevice env devicePath w = ((devicePath, None), w))
  /\ fst (selectDevice env "auto" w)
     = match map devicePathOf
               (filter (trackballNode env) (seq 0 MAX_EVENT_DEVICES)) with
       | [] =>
           (""%string,
            Some "no trackball devices found. Try to manually add a device with -device"%string)
       | first :: _ => (first, None)
       end
  /\ (forall sensitivity deadZone fuel,
        map devicePathOf
          (filter (trackballNode env) (seq 0 MAX_EVENT_DEVICES)) = [] ->
        main env sensitivity deadZone "auto" fuel w
        = Done 1
            (snd (selectDevice env "auto"
                    (w ++ [Print ("Trackball Scroll - Converting trackball movement to scroll events" ++ nl)%string]))
             ++ [Print "no trackball devices found. Try to manually add a device with -device"%string])).
Proof.
  split; [|split].
  - intros H. unfold selectDevice.
    destruct (String.eqb_spec devicePath "auto"); [contradiction | reflexivity].
  - apply selectDevice_auto.
  - intros sensitivity deadZone fuel Hnone.
    cbv beta iota zeta delta [main].
    pose proof (selectDevice_auto
      (w ++ [Print ("Trackball Scroll - Converting trackball movement to scroll events" ++ nl)%string]))
      as H.
    rewrite Hnone in H. clear Hnone.
    destruct (selectDevice env "auto"
      (w ++ [Print ("Trackball Scroll - Converting trackball movement to scroll events" ++ nl)%string]))
      as [[path err] w1].
    cbn [fst] in H. injection H as Hp He. subst path err. reflexivity.
Qed.

End Discovery.

Lemma C9_selectDevice_witness :
  selectDevice (Samples.env_ok 0) "/dev/input/event7" []
  = (("/dev/input/event7"%string, None), [])
  /\ fst (selectDevice (Samples.env_ok 0) "auto" [])
     = ("/dev/input/event3"%string, None)
  /\ fst (selectDevice Samples.env_no_devices "auto" [])
     = (""%string,
        Some "no trackball devices found. Try to manually add a device with -device"%string)
  /\ main Samples.env_no_devices DEFAULT_SENSITIVITY 2 "auto" 0 []
     = Done 1
         (snd (selectDevice Samples.env_no_devices "auto"
                 ([] ++ [Print ("Trackball Scroll - Converting trackball movement to scroll events" ++ nl)%string]))
          ++ [Print "no trackball devices found. Try to manually add a device with -device"%string]).
Proof.
  split; [|split; [|split]].
  - exact (proj1 (C9_selectDevice (Samples.env_ok 0) "/dev/input/event7" [])
             ltac:(discriminate)).
  - exact (proj1 (proj2 (C9_selectDevice (Samples.env_ok 0) "auto" []))).
  - exact (proj1 (proj2 (C9_selectDevice Samples.env_no_devices "auto" []))).
  - exact (proj2 (proj2 (C9_selectDevice Samples.env_no_devices "auto" []))
             DEFAULT_SENSITIVITY 2 0%nat eq_refl).
Defined.

(** * Part III: further properties of the code *)

(** ** Translation of batches *)

Section Batches.

Variable env : Env.

Lemma written_app w1 w2 :
  Observe.written (w1 ++ w2) = Observe.written w1 ++ Observe.written w2.
Proof. unfold Observe.written. apply flat_map_app. Qed.

(** One call of [sendScrollEvent] appends one or two writes to the
    descriptor of the virtual device, and nothing else. *)
Lemma sendScrollEvent_appends ts horizontal value w :
  exists added,
    snd (sendScrollEvent env ts horizontal value w) = w ++ added
    /\ forallb (Observe.is_write_to (virtualFd ts)) added = true
    /\ (1 <= List.length added <= 2)%nat.
Proof.
  unfold sendScrollEvent, scrollEvents, writeEvents, syscall_Write.
  destruct (write_error env w (virtualFd ts) _) as [e1|].
  - eexists. split; [reflexivity|]. simpl. rewrite Z.eqb_refl. split; [reflexivity | lia].
  - match goal with
    | |- context [write_error env ?w1 ?fd ?ev] =>
        destruct (write_error env w1 fd ev) as [e2|]
    end; eexists; (split; [cbn [snd]; rewrite <- app_assoc; reflexivity|]);
      simpl; rewrite Z.eqb_refl; (split; [reflexivity | lia]).
Qed.

(** When its two writes succeed, [sendScrollEvent] delivers the frame of
    the command. *)
Lemma sendScrollEvent_written ts c w :
  (forall w' fd ev, write_error env w' fd ev = None) ->
  Observe.written
    (snd (sendScrollEvent env ts (isHorizontal c) (scrollValue c) w))
  = Observe.written w ++ Observe.frame c.
Proof.
  intros Hok.
  unfold sendScrollEvent, scrollEvents, writeEvents, syscall_Write.
  rewrite !Hok. cbn [snd]. rewrite !written_app. cbn.
  now rewrite <- app_assoc.
Qed.

(** [handleEvents] keeps the history and appends writes only. *)
Lemma handleEvents_extends ts events w :
  exists added,
    handleEvents env ts events w = w ++ added
    /\ forallb (Observe.is_write_to (virtualFd ts)) added = true.
Proof.
  revert w. induction events as [|event rest IH]; intros w; simpl.
  - exists []. now rewrite app_nil_r.
  - destruct (scrollCommand env ts event) as [c|]; [|apply IH].
    destruct (sendScrollEvent_appends ts (isHorizontal c) (scrollValue c) w)
      as [a1 [E1 [F1 _]]].
    destruct (sendScrollEvent env ts (isHorizontal c) (scrollValue c) w)
      as [err w']. cbn [snd] in E1. subst w'.
    destruct (IH (w ++ a1)) as [a2 [E2 F2]].
    exists (a1 ++ a2). rewrite E2, app_assoc. split; [reflexivity|].
    now rewrite forallb_app, F1, F2.
Qed.

(** The dead zone only removes commands: a sample that produces a
    command under a dead zone produces the same command under every smaller
    dead zone. *)
Theorem dead_zone_monotone dev fd s d d' event c :
  d' <= d ->
  scrollCommand env
    {| device := dev; virtualFd := fd; sensitivity := s; deadZone := d |}
    event = Some c ->
  scrollCommand env
    {| device := dev; virtualFd := fd; sensitivity := s; deadZone := d' |}
    event = Some c.
Proof.
  intros Hle. unfold scrollCommand. cbn [sensitivity deadZone].
  destruct (negb (evdev.Type_ event =? evdev.EV_REL)); [discriminate|].
  set (axis := if evdev.Code event =? evdev.REL_X then _ else _).
  destruct axis as [c0|]; [|discriminate].
  destruct (Z.gtb_spec (abs (evdev.Value event)) d) as [Hd|Hd];
    [|discriminate].
  destruct (Z.gtb_spec (abs (evdev.Value event)) d') as [Hd'|Hd']; [|lia].
  exact (fun H => H).
Qed.

(** A batch is translated sample by sample: handling two batches one
    after the other is handling their concatenation, and the commands of a
    concatenation are the commands of its parts, in order. *)
Theorem handleEvents_app ts events1 events2 w :
  handleEvents env ts (events1 ++ events2) w
  = handleEvents env ts events2 (handleEvents env ts events1 w)
  /\ scrollCommands env ts (events1 ++ events2)
     = scrollCommands env ts events1 ++ scrollCommands env ts events2.
Proof.
  split.
  - revert w. induction events1 as [|event rest IH]; intros w; simpl.
    + reflexivity.
    + destruct (scrollCommand env ts event) as [c|].
      * destruct (sendScrollEvent env ts (isHorizontal c) (scrollValue c) w)
          as [err w']. apply IH.
      * apply IH.
  - induction events1 as [|event rest IH]; simpl.
    + reflexivity.
    + destruct (scrollCommand env ts event) as [c|]; simpl; now rewrite IH.
Qed.

(** [handleEvents] keeps the history and appends nothing but writes to
    the descriptor of the virtual device: at least one and at most two per
    command of the batch. *)
Theorem handleEvents_only_writes ts events w :
  exists added,
    handleEvents env ts events w = w ++ added
    /\ forallb (Observe.is_write_to (virtualFd ts)) added = true
    /\ (List.length (scrollCommands env ts events) <= List.length added
        <= 2 * List.length (scrollCommands env ts events))%nat.
Proof.
  revert w. induction events as [|event rest IH]; intros w; simpl.
  - exists []. rewrite app_nil_r. simpl. repeat split; lia.
  - destruct (scrollCommand env ts event) as [c|].
    + destruct (sendScrollEvent_appends ts (isHorizontal c) (scrollValue c) w)
        as [a1 [E1 [F1 L1]]].
      destruct (sendScrollEvent env ts (isHorizontal c) (scrollValue c) w)
        as [err w']. cbn [snd] in E1. subst w'.
      destruct (IH (w ++ a1)) as [a2 [E2 [F2 L2]]].
      exists (a1 ++ a2). rewrite E2, app_assoc. split; [reflexivity|].
      rewrite forallb_app, F1, F2. split; [reflexivity|].
      rewrite length_app. simpl. lia.
    + apply IH.
Qed.

(** When no write fails, the virtual device receives exactly the frames
    of the commands of the batch, in order: each relative-motion record is
    followed by its synchronization record. *)
Theorem handleEvents_frames ts events w :
  (forall w' fd ev, write_error env w' fd ev = None) ->
  Observe.written (handleEvents env ts events w)
  = Observe.written w
    ++ flat_map Observe.frame (scrollCommands env ts events).
Proof.
  intros Hok. revert w.
  induction events as [|event rest IH]; intros w; simpl.
  - now rewrite app_nil_r.
  - destruct (scrollCommand env ts event) as [c|].
    + pose proof (sendScrollEvent_written ts c w Hok) as Hw.
      destruct (sendScrollEvent env ts (isHorizontal c) (scrollValue c) w)
        as [err w']. cbn [snd] in Hw.
      rewrite IH, Hw. cbn [flat_map]. now rewrite <- !app_assoc.
    + apply IH.
Qed.

(** A sample of raw magnitude 0 produces no command when the dead zone
    is not negative, and none either when the sensitivity is a finite
    number. *)
Theorem zero_motion_silent ts ty code :
  0 <= deadZone ts \/ Observe.is_finite (sensitivity ts) = true ->
  scrollCommand env ts (evdev.mkInputEvent ty code 0) = None.
Proof.
  intros H. unfold scrollCommand.
  cbn [evdev.Type_ evdev.Code evdev.Value].
  destruct (negb (ty =? evdev.EV_REL)); [reflexivity|].
  assert (Hgate :
    (abs 0 >? deadZone ts) && negb (scale env (sensitivity ts) 0 =? 0) = false
    /\ (abs 0 >? deadZone ts)
       && negb (Int32.neg (scale env (sensitivity ts) 0) =? 0) = false).
  { destruct H as [Hd|Hf].
    - assert (E : (abs 0 >? deadZone ts) = false).
      { change (abs 0) with 0.
        destruct (Z.gtb_spec 0 (deadZone ts)); [lia | reflexivity]. }
      rewrite E. split; reflexivity.
    - assert (E : scale env (sensitivity ts) 0 = 0).
      { unfold scale. destruct (sensitivity ts); try discriminate; reflexivity. }
      rewrite E. change (Int32.neg 0) with 0. simpl.
      rewrite !andb_false_r. split; reflexivity. }
  destruct Hgate as [Hx Hy].
  destruct (code =? evdev.REL_X).
  - cbn [scrollValue]. now rewrite Hx.
  - destruct (code =? evdev.REL_Y); [|reflexivity].
    cbn [scrollValue]. now rewrite Hy.
Qed.

End Batches.

(** The helper [abs] on an [int32]: its result is an [int32]; it is
    negative exactly at -2147483648; applying it twice changes nothing. *)
Theorem abs_int32 x :
  Int32.in_range x ->
  Int32.in_range (abs x)
  /\ (abs x < 0 <-> x = Int32.min_int)
  /\ abs (abs x) = abs x.
Proof.
  intros H. destruct (Z.eq_dec x Int32.min_int) as [->|Hm].
  - split; [exact H | split; [|reflexivity]].
    split; [reflexivity | intros _; reflexivity].
  - rewrite (abs_exact x H Hm).
    assert (Hr : Int32.in_range (Z.abs x)).
    { unfold Int32.in_range, Int32.min_int, Int32.max_int in *. lia. }
    split; [exact Hr | split].
    + split; [lia | contradiction].
    + rewrite abs_exact; [lia | exact Hr |].
      unfold Int32.min_int. lia.
Qed.

Lemma dead_zone_monotone_witness :
  scrollCommand (Samples.env_ok 0)
    {| device := None; virtualFd := 5; sensitivity := one; deadZone := 3 |}
    (Samples.sampleX 10)
  = Some {| isHorizontal := true; scrollValue := 10 |}.
Proof.
  exact (dead_zone_monotone (Samples.env_ok 0) None 5 one 9 3
           (Samples.sampleX 10) _ ltac:(lia) eq_refl).
Defined.

Lemma handleEvents_frames_witness :
  Observe.written
    (handleEvents (Samples.env_ok 0) (Samples.scroller one 0) Samples.batch [])
  = [ (EV_REL, REL_WHEEL, -20); (EV_SYN, SYN_REPORT, 0);
      (EV_REL, REL_HWHEEL, 10); (EV_SYN, SYN_REPORT, 0) ].
Proof.
  exact (handleEvents_frames (Samples.env_ok 0) (Samples.scroller one 0)
           Samples.batch [] (fun _ _ _ => eq_refl)).
Defined.

Lemma zero_motion_silent_witness :
  scrollCommand (Samples.env_ok 0) (Samples.scroller one (-5))
    (Samples.sampleY 0) = None.
Proof.
  exact (zero_motion_silent (Samples.env_ok 0) (Samples.scroller one (-5))
           evdev.EV_REL evdev.REL_Y (or_intror eq_refl)).
Defined.

Lemma abs_int32_witness :
  Int32.in_range (abs (-7)) /\ (abs (-7) < 0 <-> -7 = Int32.min_int)
  /\ abs (abs (-7)) = abs (-7).
Proof.
  apply abs_int32. unfold Int32.in_range, Int32.min_int, Int32.max_int. lia.
Defined.

(** ** Symmetry of the scaling *)

Module Float64Facts.

Lemma binary_round_aux_opp s m e l :
  binary_round_aux prec emax (negb s) m e l
  = SFopp (binary_round_aux prec emax s m e l).
Proof.
  unfold binary_round_aux.
  destruct (shr_fexp prec emax m e l) as [mrs' e'].
  destruct (shr_fexp prec emax _ e' loc_Exact) as [mrs'' e''].
  destruct (shr_m mrs'') as [|p|p]; try reflexivity.
  destruct (e'' <=? emax - prec); reflexivity.
Qed.

Lemma mul_opp_l x y : mul (SFopp x) y = SFopp (mul x y).
Proof.
  unfold mul.
  destruct x as [sx|sx| |sx mx ex], y as [sy|sy| |sy my ey];
    cbn [SFmul SFopp]; rewrite <- ?negb_xorb_l; try reflexivity.
  apply binary_round_aux_opp.
Qed.

Lemma of_int32_opp v : v <> 0 -> of_int32 (- v) = SFopp (of_int32 v).
Proof.
  intros Hv. unfold of_int32.
  destruct v as [|p|p]; [contradiction| |]; cbn [Z.opp binary_normalize];
    unfold binary_round;
    destruct (shl_align p 0 (fexp prec emax (Z.pos (digits2_pos p) + 0)))
      as [mz ez].
  - apply (binary_round_aux_opp false).
  - rewrite (binary_round_aux_opp false).
    destruct (binary_round_aux _ _ _ _ _ _) as [[]|[]| |[] m e]; reflexivity.
Qed.

Lemma trunc_opp x : trunc (SFopp x) = option_map Z.opp (trunc x).
Proof.
  destruct x as [s|s| |s m e]; cbn [SFopp trunc option_map]; try reflexivity.
  destruct s; cbn [negb]; f_equal; lia.
Qed.

(** The product with a zero truncates to 0 or to nothing. *)
Lemma trunc_mul_zero sz s z :
  trunc (mul (S754_zero sz) s) = Some z -> z = 0.
Proof.
  destruct s; cbn; intros H; inversion H; reflexivity.
Qed.

End Float64Facts.

Section Symmetry.

Variable env : Env.

Lemma in_rangeb_symmetric y :
  -2147483647 <= y <= 2147483647 -> Int32.in_rangeb y = true.
Proof.
  intros Hy. apply Int32Facts.in_rangeb_spec.
  unfold Int32.in_range, Int32.min_int, Int32.max_int. lia.
Qed.

Lemma scale_of_trunc s v z :
  trunc (mul (of_int32 v) s) = Some z ->
  -2147483647 <= z <= 2147483647 ->
  scale env s v = z.
Proof.
  intros Ht Hz. unfold scale, to_int32.
  now rewrite Ht, (in_rangeb_symmetric z Hz).
Qed.

Lemma scale_opp_of_trunc s v z :
  trunc (mul (of_int32 v) s) = Some z ->
  -2147483647 <= z <= 2147483647 ->
  scale env s (- v) = - z.
Proof.
  intros Ht Hz. destruct (Z.eq_dec v 0) as [->|Hnz].
  - change (- 0) with 0. rewrite (scale_of_trunc s 0 z Ht Hz).
    change (of_int32 0) with (S754_zero false) in Ht.
    apply Float64Facts.trunc_mul_zero in Ht. lia.
  - unfold scale, to_int32.
    rewrite (Float64Facts.of_int32_opp v Hnz), Float64Facts.mul_opp_l,
      Float64Facts.trunc_opp, Ht.
    cbn [option_map]. rewrite (in_rangeb_symmetric (- z)) by lia. reflexivity.
Qed.


(** A vertical motion scrolls like the opposite horizontal motion: under
    the conditions of [scale_odd], the Y sample of raw magnitude [v]
    produces a command exactly when the X sample of raw magnitude [-v]
    does, with the same magnitude. *)
Theorem vertical_as_reversed_horizontal ts v z :
  Int32.in_range v -> v <> Int32.min_int ->
  trunc (mul (of_int32 v) (sensitivity ts)) = Some z ->
  -2147483647 <= z <= 2147483647 ->
  scrollCommand env ts (evdev.mkInputEvent evdev.EV_REL evdev.REL_Y v)
  = option_map
      (fun c => {| isHorizontal := false; scrollValue := scrollValue c |})
      (scrollCommand env ts (evdev.mkInputEvent evdev.EV_REL evdev.REL_X (- v))).
Proof.
  intros Hr Hm Ht Hz.
  rewrite scrollCommand_REL_X, scrollCommand_REL_Y.
  rewrite (scale_of_trunc (sensitivity ts) v z Ht Hz),
    (scale_opp_of_trunc (sensitivity ts) v z Ht Hz).
  assert (Hr' : Int32.in_range (- v)).
  { unfold Int32.in_range, Int32.min_int, Int32.max_int in *. lia. }
  assert (Hm' : - v <> Int32.min_int).
  { unfold Int32.in_range, Int32.min_int, Int32.max_int in *. lia. }
  rewrite (abs_exact v Hr Hm), (abs_exact (- v) Hr' Hm'), Z.abs_opp.
  assert (Hn : Int32.neg z = - z).
  { apply Int32Facts.neg_exact;
      unfold Int32.in_range, Int32.min_int, Int32.max_int; lia. }
  rewrite Hn.
  destruct ((Z.abs v >? deadZone ts) && negb (- z =? 0)); reflexivity.
Qed.

End Symmetry.


Lemma vertical_as_reversed_horizontal_witness :
  scrollCommand (Samples.env_ok 0) (Samples.scroller DEFAULT_SENSITIVITY 2)
    (evdev.mkInputEvent evdev.EV_REL evdev.REL_Y 20)
  = option_map
      (fun c => {| isHorizontal := false; scrollValue := scrollValue c |})
      (scrollCommand (Samples.env_ok 0) (Samples.scroller DEFAULT_SENSITIVITY 2)
         (evdev.mkInputEvent evdev.EV_REL evdev.REL_X (- 20))).
Proof.
  apply (vertical_as_reversed_horizontal (Samples.env_ok 0)
           (Samples.scroller DEFAULT_SENSITIVITY 2) 20 6).
  - unfold Int32.in_range, Int32.min_int, Int32.max_int. lia.
  - unfold Int32.min_int. lia.
  - reflexivity.
  - lia.
Defined.

(** ** The loop and [main], over every environment *)

Section Runs.

Variable env : Env.

Lemma no_cleanup_app a b :
  Observe.no_cleanup (a ++ b) = Observe.no_cleanup a && Observe.no_cleanup b.
Proof. apply forallb_app. Qed.

Lemma writes_no_cleanup fd a :
  forallb (Observe.is_write_to fd) a = true -> Observe.no_cleanup a = true.
Proof.
  induction a as [|e a IH]; simpl; [reflexivity|].
  rewrite andb_true_iff. intros [He Ha].
  rewrite (IH Ha), andb_true_r. now destruct e.
Qed.

(** The loop reads and writes; it never destroys, closes or releases. *)
Lemma processEvents_added fuel ts : forall w r w',
  processEvents env fuel ts w = Done r w' ->
  exists added, w' = w ++ added /\ Observe.no_cleanup added = true.
Proof.
  induction fuel as [|fuel IH]; intros w r w'; simpl.
  - discriminate.
  - destruct (stop_closed env w).
    + intros H. inversion H. exists []. now rewrite app_nil_r.
    + destruct (device ts); [|discriminate].
      destruct (read_result env w) as [events|e].
      * destruct (handleEvents_extends env ts events (w ++ [DevRead None]))
          as [a1 [E1 F1]].
        rewrite E1. intros H. apply IH in H. destruct H as [a2 [E2 F2]].
        exists ([DevRead None] ++ a1 ++ a2). split.
        -- now rewrite E2, <- !app_assoc.
        -- rewrite !no_cleanup_app, (writes_no_cleanup _ _ F1), F2. reflexivity.
      * intros H. inversion H. now exists [DevRead (Some e)].
Qed.

Lemma processEvents_no_panic fuel ts d : forall w w',
  device ts = Some d -> processEvents env fuel ts w <> Panic w'.
Proof.
  induction fuel as [|fuel IH]; intros w w' Hd; simpl.
  - discriminate.
  - destruct (stop_closed env w); [discriminate|].
    rewrite Hd. destruct (read_result env w); [now apply IH | discriminate].
Qed.

(** The exit status of a run.  With a device and a valid descriptor,
    [main] ends, from the loop on, with status 0 or 1 and never panics.
    Status 0: the loop returned [nil], and the last effects are the last
    line and the three requests of [close].  Status 1: a read failed, the
    failed read and the message are the last effects, and nothing was
    destroyed, closed or released. *)
Theorem main_running_exit ts dev fuel w st w' :
  device ts = Some dev ->
  0 <= virtualFd ts ->
  main_running env ts dev fuel w = Done st w' ->
  (st = 0
   /\ exists w2,
        processEvents env fuel ts
          (w ++ [Print ("Ready: " ++ evdev.Name dev
                          ++ " | Press Ctrl+C to exit" ++ nl)%string])
        = Done None w2
        /\ w' = w2 ++ [Print ("Trackball scroller stopped." ++ nl)%string;
                       SysIoctl (virtualFd ts) UI_DEV_DESTROY;
                       SysClose (virtualFd ts); DevRelease dev])
  \/ (st = 1
      /\ (exists e w0,
            w' = w0 ++ [DevRead (Some e);
                        Print ("Error processing events: error reading events: "
                                 ++ e)%string])
      /\ exists added, w' = w ++ added /\ Observe.no_cleanup added = true).
Proof.
  intros Hdev Hfd. cbv beta iota zeta delta [main_running].
  destruct (processEvents env fuel ts _) as [r w2| w2 |] eqn:E.
  - destruct r as [err|].
    + intros H. inversion H. subst st w'. right. split; [reflexivity|]. split.
      * destruct (processEvents_error_is_read_error env _ _ _ _ _ E)
          as [e [w0 [-> ->]]].
        exists e, w0. now rewrite <- app_assoc.
      * destruct (processEvents_added _ _ _ _ _ E) as [a [-> Fa]].
        eexists. split; [rewrite <- !app_assoc; reflexivity|].
        cbn [app]. unfold Observe.no_cleanup in *. cbn [forallb].
        rewrite forallb_app, Fa. reflexivity.
    + cbv beta iota zeta delta [close InputDevice_Release]. rewrite Hdev.
      destruct (Z.leb_spec 0 (virtualFd ts)) as [_|Hneg]; [|lia].
      intros Hm. inversion Hm. subst st w'. left. split; [reflexivity|].
      exists w2. split; [reflexivity|]. now rewrite <- !app_assoc.
  - exfalso. exact (processEvents_no_panic _ _ _ _ _ Hdev E).
  - discriminate.
Qed.

(** Calling [close] again repeats its requests: [close] does not mark the
    scroller as closed.  What it appends is requests of cleanup only, and a
    second call appends the same requests once more. *)
Theorem close_repeats ts w w1 :
  close ts w = Done tt w1 ->
  exists added,
    w1 = w ++ added
    /\ forallb Observe.is_cleanup added = true
    /\ close ts w1 = Done tt (w1 ++ added).
Proof.
  unfold close, InputDevice_Release.
  destruct (device ts) as [d|]; destruct (0 <=? virtualFd ts);
    intros H; inversion H; subst w1.
  - exists [SysIoctl (virtualFd ts) UI_DEV_DESTROY; SysClose (virtualFd ts);
            DevRelease d].
    rewrite <- !app_assoc. repeat split.
  - exists [DevRelease d]. repeat split.
  - exists [SysIoctl (virtualFd ts) UI_DEV_DESTROY; SysClose (virtualFd ts)].
    repeat split.
  - exists []. rewrite app_nil_r. repeat split.
Qed.

End Runs.

Lemma main_running_exit_witness :
  (0 = 0
   /\ exists w2,
        processEvents (Samples.env_ok 1) 1 (Samples.scroller one 0)
          ([] ++ [Print ("Ready: " ++ evdev.Name Samples.trackball
                           ++ " | Press Ctrl+C to exit" ++ nl)%string])
        = Done None w2
        /\ [Print ("Ready: Kensington Expert Mouse | Press Ctrl+C to exit" ++ nl)%string;
            Print ("Trackball scroller stopped." ++ nl)%string;
            SysIoctl 5 UI_DEV_DESTROY; SysClose 5; DevRelease Samples.trackball]
           = w2 ++ [Print ("Trackball scroller stopped." ++ nl)%string;
                    SysIoctl (virtualFd (Samples.scroller one 0)) UI_DEV_DESTROY;
                    SysClose (virtualFd (Samples.scroller one 0));
                    DevRelease Samples.trackball])
  \/ (0 = 1
      /\ (exists e w0,
            [Print ("Ready: Kensington Expert Mouse | Press Ctrl+C to exit" ++ nl)%string;
             Print ("Trackball scroller stopped." ++ nl)%string;
             SysIoctl 5 UI_DEV_DESTROY; SysClose 5; DevRelease Samples.trackball]
            = w0 ++ [DevRead (Some e);
                     Print ("Error processing events: error reading events: "
                              ++ e)%string])
      /\ exists added,
           [Print ("Ready: Kensington Expert Mouse | Press Ctrl+C to exit" ++ nl)%string;
            Print ("Trackball scroller stopped." ++ nl)%string;
            SysIoctl 5 UI_DEV_DESTROY; SysClose 5; DevRelease Samples.trackball]
           = [] ++ added /\ Observe.no_cleanup added = true).
Proof.
  exact (main_running_exit (Samples.env_ok 1) (Samples.scroller one 0)
           Samples.trackball 1 [] 0 _ eq_refl ltac:(simpl; lia) eq_refl).
Defined.

Lemma close_repeats_witness :
  exists added,
    [SysIoctl 5 UI_DEV_DESTROY; SysClose 5; DevRelease Samples.trackball]
    = [] ++ added
    /\ forallb Observe.is_cleanup added = true
    /\ close (Samples.scroller one 0)
         [SysIoctl 5 UI_DEV_DESTROY; SysClose 5; DevRelease Samples.trackball]
       = Done tt
           ([SysIoctl 5 UI_DEV_DESTROY; SysClose 5; DevRelease Samples.trackball]
            ++ added).
Proof.
  exact (close_repeats (Samples.scroller one 0) [] _ eq_refl).
Defined.

(** ** Discovery, over every environment *)

Section Scan.

Variable env : Env.

Lemma itoa_inj a b : strings.itoa a = strings.itoa b -> a = b.
Proof.
  unfold strings.itoa. intros H.
  apply DecimalNat.Unsigned.to_uint_inj.
  pose proof (NilEmpty.usu (Nat.to_uint a)) as Ha.
  pose proof (NilEmpty.usu (Nat.to_uint b)) as Hb.
  rewrite H in Ha. rewrite Ha in Hb. now inversion Hb.
Qed.

Lemma devicePathOf_inj : Injective devicePathOf.
Proof.
  intros a b H. unfold devicePathOf in H. cbn [append] in H.
  apply itoa_inj. now inversion H.
Qed.

(** The first element that a filter keeps of a run of numbers. *)
Lemma filter_seq_head (f : nat -> bool) n : forall a x rest,
  filter f (seq a n) = x :: rest ->
  f x = true /\ (a <= x < a + n)%nat
  /\ forall j, (a <= j < x)%nat -> f j = false.
Proof.
  induction n as [|n IH]; intros a x rest; cbn [seq filter].
  - discriminate.
  - destruct (f a) eqn:Fa.
    + intros H. inversion H. subst. repeat split; try lia. exact Fa.
    + intros H. apply IH in H. destruct H as [Hx [Hr Hj]].
      repeat split; try lia; [exact Hx|].
      intros j Hjr. destruct (Nat.eq_dec j a) as [->|Hne]; [exact Fa|].
      apply Hj. lia.
Qed.

Lemma filter_seq_first (f : nat -> bool) n : forall a i,
  (a <= i < a + n)%nat -> f i = true ->
  (forall j, (a <= j < i)%nat -> f j = false) ->
  exists rest, filter f (seq a n) = i :: rest.
Proof.
  induction n as [|n IH]; intros a i Hr Fi Hj; cbn [seq filter].
  - lia.
  - destruct (Nat.eq_dec i a) as [->|Hne].
    + rewrite Fi. eexists. reflexivity.
    + rewrite (Hj a) by lia. apply IH; [lia | exact Fi |].
      intros j Hjr. apply Hj. lia.
Qed.

Lemma attempted_app a b :
  Observe.attempted (a ++ b) = Observe.attempted a ++ Observe.attempted b.
Proof. apply flat_map_app. Qed.

Lemma opened_app a b :
  Observe.opened (a ++ b) = Observe.opened a ++ Observe.opened b.
Proof. apply flat_map_app. Qed.

Lemma closed_app a b :
  Observe.closed (a ++ b) = Observe.closed a ++ Observe.closed b.
Proof. apply flat_map_app. Qed.

(** The effects of the scan of [n] nodes from node [i] on. *)
Lemma scanDevices_added n : forall i acc w,
  exists added,
    snd (scanDevices env n i acc w) = w ++ added
    /\ Observe.attempted added = map devicePathOf (seq i n)
    /\ Observe.closed added = Observe.opened added
    /\ Observe.no_cleanup added = true.
Proof.
  induction n as [|n IH]; intros i acc w; cbn [scanDevices seq map].
  - exists []. now rewrite app_nil_r.
  - destruct (open_result env (devicePathOf i)) as [dev|e].
    + destruct (isTrackballDevice env (evdev.Name dev)).
      * match goal with
        | |- context [scanDevices env n (S i) ?acc' (?w0 ++ ?l)] =>
            destruct (IH (S i) acc' (w0 ++ l)) as [a [E [Ha [Hc Hn]]]]
        end.
        eexists. split; [rewrite E, <- !app_assoc; reflexivity|].
        rewrite !attempted_app, !closed_app, !opened_app, !no_cleanup_app.
        rewrite Ha, Hc, Hn. repeat split.
      * match goal with
        | |- context [scanDevices env n (S i) ?acc' (?w0 ++ ?l)] =>
            destruct (IH (S i) acc' (w0 ++ l)) as [a [E [Ha [Hc Hn]]]]
        end.
        eexists. split; [rewrite E, <- !app_assoc; reflexivity|].
        rewrite !attempted_app, !closed_app, !opened_app, !no_cleanup_app.
        rewrite Ha, Hc, Hn. repeat split.
    + destruct (IH (S i) acc (w ++ [DevOpen (devicePathOf i) (Some e)]))
        as [a [E [Ha [Hc Hn]]]].
      eexists. split; [rewrite E, <- !app_assoc; reflexivity|].
      rewrite !attempted_app, !closed_app, !opened_app, !no_cleanup_app.
      rewrite Ha, Hc, Hn. repeat split.
Qed.

Lemma scan_result_added n w :
  exists added,
    snd (let '(trackballPaths, w') := scanDevices env n 0 [] w in
         ((trackballPaths, @None string), w')) = w ++ added
    /\ Observe.attempted added = map devicePathOf (seq 0 n)
    /\ Observe.closed added = Observe.opened added
    /\ Observe.no_cleanup added = true.
Proof.
  destruct (scanDevices_added n 0 [] w) as [a H].
  destruct (scanDevices env n 0 [] w) as [paths w']. now exists a.
Qed.

Lemma findTrackballDevices_added w :
  exists added,
    snd (findTrackballDevices env w) = w ++ added
    /\ Observe.attempted added = map devicePathOf (seq 0 MAX_EVENT_DEVICES)
    /\ Observe.closed added = Observe.opened added
    /\ Observe.no_cleanup added = true.
Proof. exact (scan_result_added MAX_EVENT_DEVICES w). Qed.

(** The scan visits each of the nodes 0 to 31 once, in order, whatever
    opens and whatever fails; it closes every device it opened, in the
    order of opening; and it keeps the history, with nothing destroyed or
    released. *)
Theorem findTrackballDevices_visits_and_closes w :
  exists added,
    snd (findTrackballDevices env w) = w ++ added
    /\ Observe.attempted added = map devicePathOf (seq 0 MAX_EVENT_DEVICES)
    /\ Observe.closed added = Observe.opened added
    /\ Observe.no_cleanup added = true.
Proof.
  destruct (findTrackballDevices_added w) as [a [E [Ha [Hc Hn]]]].
  exists a. repeat split; assumption.
Qed.

Lemma findTrackballDevices_list w :
  fst (fst (findTrackballDevices env w))
  = map devicePathOf (filter (trackballNode env) (seq 0 MAX_EVENT_DEVICES))
  /\ snd (fst (findTrackballDevices env w)) = None.
Proof.
  rewrite findTrackballDevices_paths. split; reflexivity.
Qed.

(** What the scan returns: never an error; a path is returned exactly
    when it is the path of one of the nodes 0 to 31 that opens and carries
    the name of a trackball; no path is returned twice. *)
Theorem findTrackballDevices_sound_complete w :
  snd (fst (findTrackballDevices env w)) = None
  /\ (forall path,
        In path (fst (fst (findTrackballDevices env w)))
        <-> exists i,
              (i < MAX_EVENT_DEVICES)%nat /\ path = devicePathOf i
              /\ trackballNode env i = true)
  /\ NoDup (fst (fst (findTrackballDevices env w))).
Proof.
  destruct (findTrackballDevices_list w) as [El Ee]. rewrite El.
  split; [exact Ee | split].
  - intros path. rewrite in_map_iff. split.
    + intros [i [Hp Hin]]. apply filter_In in Hin. destruct Hin as [Hs Hf].
      apply in_seq in Hs. exists i. repeat split; [lia | now symmetry | exact Hf].
    + intros [i [Hi [Hp Hf]]]. exists i. split; [now symmetry|].
      apply filter_In. split; [apply in_seq; lia | exact Hf].
  - apply Injective_map_NoDup; [exact devicePathOf_inj|].
    apply NoDup_filter, seq_NoDup.
Qed.

(** The choice of "auto" is the trackball node of least number:
    [selectDevice] returns a path without error exactly when it is the path
    of a trackball node below which no node is a trackball. *)
Theorem selectDevice_auto_least w path :
  fst (selectDevice env "auto" w) = (path, None)
  <-> exists i,
        (i < MAX_EVENT_DEVICES)%nat /\ path = devicePathOf i
        /\ trackballNode env i = true
        /\ forall j, (j < i)%nat -> trackballNode env j = false.
Proof.
  rewrite selectDevice_auto.
  remember (filter (trackballNode env) (seq 0 MAX_EVENT_DEVICES)) as L eqn:EL.
  symmetry in EL. split.
  - destruct L as [|x rest]; cbn [map]; [discriminate|].
    intros H. inversion H. subst path.
    apply filter_seq_head in EL. destruct EL as [Hx [Hr Hj]].
    exists x. repeat split; [lia | exact Hx |].
    intros j Hjx. apply Hj. lia.
  - intros [i [Hi [Hp [Hf Hj]]]].
    destruct (filter_seq_first (trackballNode env) MAX_EVENT_DEVICES 0 i)
      as [rest Hrest]; [lia | exact Hf | intros j Hjr; apply Hj; lia |].
    rewrite Hrest in EL. subst L. cbn [map]. now rewrite Hp.
Qed.

End Scan.

(** ** Names *)

Module NamesFacts.

Import strings.

Lemma append_assoc (a b c : string) :
  ((a ++ b) ++ c)%string = (a ++ (b ++ c))%string.
Proof. induction a as [|x a IH]; simpl; [reflexivity | now rewrite IH]. Qed.

Lemma isASCII_append a b : isASCII (a ++ b) = isASCII a && isASCII b.
Proof.
  induction a as [|x a IH]; simpl; [reflexivity|].
  now rewrite IH, andb_assoc.
Qed.

Lemma map_bytes_append f a b :
  map_bytes f (a ++ b) = (map_bytes f a ++ map_bytes f b)%string.
Proof. induction a as [|x a IH]; simpl; [reflexivity | now rewrite IH]. Qed.

End NamesFacts.

Section Names.

Variable env : Env.

(** What surrounds a name does not hide it: an ASCII name classified as
    a trackball stays one when ASCII text is put before and after it. *)
Theorem isTrackballDevice_extends pre name suf :
  strings.isASCII pre = true -> strings.isASCII name = true ->
  strings.isASCII suf = true ->
  isTrackballDevice env name = true ->
  isTrackballDevice env (pre ++ name ++ suf) = true.
Proof.
  intros Hp Hn Hs. unfold isTrackballDevice, strings.ToLower.
  rewrite !NamesFacts.isASCII_append, Hp, Hn, Hs. cbn [andb].
  rewrite !matchesKeyword_spec.
  intros [kw [Hin Hc]]. exists kw. split; [exact Hin|].
  apply StringsFacts.Contains_spec in Hc. destruct Hc as [a [b Hab]].
  apply StringsFacts.Contains_spec.
  exists (strings.map_bytes strings.lower_byte pre ++ a)%string,
         (b ++ strings.map_bytes strings.lower_byte suf)%string.
  rewrite !NamesFacts.map_bytes_append, Hab.
  now rewrite !NamesFacts.append_assoc.
Qed.

End Names.

Lemma isTrackballDevice_case_insensitive_witness :
  isTrackballDevice (Samples.env_ok 0) "KENSINGTON SlimBlade"
  = isTrackballDevice (Samples.env_ok 0) "kensington SLIMBLADE".
Proof.
  exact (isTrackballDevice_case_insensitive (Samples.env_ok 0)
           "KENSINGTON SlimBlade" "kensington SLIMBLADE"
           eq_refl eq_refl eq_refl).
Defined.

Lemma isTrackballDevice_extends_witness :
  isTrackballDevice (Samples.env_ok 0) ("Kensington " ++ "Orbit" ++ " Fusion")
  = true.
Proof.
  exact (isTrackballDevice_extends (Samples.env_ok 0)
           "Kensington " "Orbit" " Fusion" eq_refl eq_refl eq_refl eq_refl).
Defined.

(** ** The whole of [main] *)

Section WholeRun.

Variable env : Env.




End WholeRun.


(** ** The creation of the virtual device *)

Section Creation.

Variable sys : uinput.Sys.

Ltac unfold_creation :=
  cbv beta iota zeta delta
    [uinput.createScrollOnlyDevice uinput.syscall_Open uinput.configureDevice
     uinput.capabilities uinput.setCapabilities uinput.setupDevice
     uinput.createDevice uinput.ioctl].

Ltac split_errno :=
  match goal with
  | |- context [negb (?e =? 0)] =>
      let x := fresh "errno" in
      let H := fresh "Herrno" in
      set (x := e) in *; clearbody x;
      destruct (Z.eqb_spec x 0) as [->|H]; cbn [negb]; cbv beta iota
  end.

Ltac failed_at k :=
  solve [ exists k; eexists; split; [lia|];
          split; [|split; [cbn; reflexivity | cbn; reflexivity]];
          assumption ].

(** The descriptor of the virtual device is never lost.  When
    [createScrollOnlyDevice] fails it returns -1 and, if [/dev/uinput] had
    been opened, its last call closed that descriptor, exactly once; when
    it succeeds it returns the descriptor that was opened, has not closed
    it, and its last call was the wait. *)
Theorem createScrollOnlyDevice_descriptor t :
  exists added,
    snd (uinput.createScrollOnlyDevice sys t) = t ++ added
    /\ match snd (fst (uinput.createScrollOnlyDevice sys t)),
             uinput.open_result sys t "/dev/uinput"
               (Z.lor uinput.O_WRONLY uinput.O_NONBLOCK) with
       | None, Ok fd =>
           fst (fst (uinput.createScrollOnlyDevice sys t)) = fd
           /\ uinput.closed added = []
           /\ last added (uinput.Close fd) = uinput.Sleep 100
       | None, Err _ => False
       | Some _, Ok fd =>
           fst (fst (uinput.createScrollOnlyDevice sys t)) = -1
           /\ uinput.closed added = [fd]
           /\ last added (uinput.Sleep 0) = uinput.Close fd
       | Some _, Err _ =>
           fst (fst (uinput.createScrollOnlyDevice sys t)) = -1
           /\ uinput.closed added = []
       end.
Proof.
  unfold_creation.
  destruct (uinput.open_result sys t "/dev/uinput"
              (Z.lor uinput.O_WRONLY uinput.O_NONBLOCK)) as [fd|e].
  - repeat split_errno;
      (eexists; split; [cbn [snd]; rewrite <- !app_assoc; reflexivity|]);
      cbn; repeat split.
  - eexists. split; [reflexivity|]. cbn. repeat split.
Qed.

(** The requests are made in one order and stop at the first failure.
    On success the six requests (category of relative motion, vertical
    wheel, horizontal wheel, category of synchronization, setup, creation)
    were all made, in this order, and all succeeded.  On failure either
    [/dev/uinput] did not open and no request was made, or the requests
    made are the first ones of that order, the last of them failed and
    those before it succeeded: nothing is requested after a failure, and in
    particular no device is created after a failed declaration or setup. *)
Theorem createScrollOnlyDevice_order t :
  exists added,
    snd (uinput.createScrollOnlyDevice sys t) = t ++ added
    /\ match snd (fst (uinput.createScrollOnlyDevice sys t)) with
       | None =>
           uinput.requests added
           = [ uinput.UI_SET_EVBIT; uinput.UI_SET_RELBIT; uinput.UI_SET_RELBIT;
               uinput.UI_SET_EVBIT; uinput.UI_DEV_SETUP; uinput.UI_DEV_CREATE ]
           /\ uinput.errnos added = [0; 0; 0; 0; 0; 0]
       | Some _ =>
           (uinput.requests added = []
            /\ exists e,
                 uinput.open_result sys t "/dev/uinput"
                   (Z.lor uinput.O_WRONLY uinput.O_NONBLOCK) = Err e)
           \/ exists k e,
                (k < 6)%nat /\ e <> 0
                /\ uinput.errnos added = repeat 0 k ++ [e]
                /\ uinput.requests added
                   = firstn (S k)
                       [ uinput.UI_SET_EVBIT; uinput.UI_SET_RELBIT;
                         uinput.UI_SET_RELBIT; uinput.UI_SET_EVBIT;
                         uinput.UI_DEV_SETUP; uinput.UI_DEV_CREATE ]
       end.
Proof.
  unfold_creation.
  destruct (uinput.open_result sys t "/dev/uinput"
              (Z.lor uinput.O_WRONLY uinput.O_NONBLOCK)) as [fd|e] eqn:Eo.
  - repeat split_errno;
      (eexists; split; [cbn [snd]; rewrite <- !app_assoc; reflexivity|]);
      cbn [fst snd];
      first [ solve [cbn; split; reflexivity]
            | right;
              first [ failed_at 0%nat | failed_at 1%nat | failed_at 2%nat
                    | failed_at 3%nat | failed_at 4%nat | failed_at 5%nat ] ].
  - eexists. split; [reflexivity|]. cbn [fst snd]. left. split; [reflexivity|].
    now exists e.
Qed.

(** When [/dev/uinput] opens and every request succeeds, the calls are:
    the open, the six requests with their arguments, and the wait of 100
    milliseconds; the descriptor opened is returned. *)
Theorem createScrollOnlyDevice_success t fd :
  uinput.open_result sys t "/dev/uinput"
    (Z.lor uinput.O_WRONLY uinput.O_NONBLOCK) = Ok fd ->
  (forall t' cmd arg, uinput.ioctl_errno sys t' fd cmd arg = 0) ->
  uinput.createScrollOnlyDevice sys t
  = ((fd, None),
     t ++ [ uinput.Open "/dev/uinput" (Z.lor uinput.O_WRONLY uinput.O_NONBLOCK)
              (Ok fd);
            uinput.Ioctl fd uinput.UI_SET_EVBIT (uinput.Value EV_REL) 0;
            uinput.Ioctl fd uinput.UI_SET_RELBIT (uinput.Value REL_WHEEL) 0;
            uinput.Ioctl fd uinput.UI_SET_RELBIT (uinput.Value REL_HWHEEL) 0;
            uinput.Ioctl fd uinput.UI_SET_EVBIT (uinput.Value EV_SYN) 0;
            uinput.Ioctl fd uinput.UI_DEV_SETUP
              (uinput.SetupPtr uinput.theSetup) 0;
            uinput.Ioctl fd uinput.UI_DEV_CREATE (uinput.Value 0) 0;
            uinput.Sleep 100 ]).
Proof.
  intros Ho Hi. unfold_creation. rewrite Ho.
  repeat (rewrite !Hi; cbn [Z.eqb negb fst snd]; cbv beta iota).
  now rewrite <- !app_assoc.
Qed.

End Creation.

Lemma createScrollOnlyDevice_success_witness :
  fst (uinput.createScrollOnlyDevice uinput.sys_ok []) = (7, None).
Proof.
  exact (f_equal fst
           (createScrollOnlyDevice_success uinput.sys_ok [] 7
              eq_refl (fun _ _ _ => eq_refl))).
Defined.

(** ** Sensitivity 1.0 *)

Module ExactFacts.

Lemma digits2_shift p q :
  digits2_pos (Pos.iter xO p q) = (digits2_pos p + q)%positive.
Proof.
  induction q as [|q IH] using Pos.peano_ind.
  - cbn. now rewrite Pos.add_1_r.
  - rewrite Pos.iter_succ. cbn [digits2_pos]. rewrite IH.
    now rewrite Pos.add_succ_r.
Qed.

Lemma Zpos_shift p q : Z.pos (Pos.iter xO p q) = Z.pos p * 2 ^ Z.pos q.
Proof.
  induction q as [|q IH] using Pos.peano_ind.
  - cbn. lia.
  - rewrite Pos.iter_succ, Pos2Z.inj_xO, IH, Pos2Z.inj_succ.
    rewrite Z.pow_succ_r by lia. lia.
Qed.

(** A number of [d] binary digits is at least [2 ^ (d - 1)]. *)
Lemma digits2_lower p : 2 ^ (Z.pos (digits2_pos p) - 1) <= Z.pos p.
Proof.
  induction p as [p IH|p IH|]; cbn [digits2_pos].
  - rewrite Pos2Z.inj_succ.
    replace (Z.succ (Z.pos (digits2_pos p)) - 1)
      with (Z.succ (Z.pos (digits2_pos p) - 1)) by lia.
    rewrite Z.pow_succ_r by lia. lia.
  - rewrite Pos2Z.inj_succ.
    replace (Z.succ (Z.pos (digits2_pos p)) - 1)
      with (Z.succ (Z.pos (digits2_pos p) - 1)) by lia.
    rewrite Z.pow_succ_r by lia. lia.
  - cbn. lia.
Qed.

Lemma digits2_int32 p : Z.pos p <= 2147483647 -> Z.pos (digits2_pos p) <= 31.
Proof.
  intros Hp. destruct (Z_le_gt_dec (Z.pos (digits2_pos p)) 31) as [H|H];
    [exact H | exfalso].
  pose proof (digits2_lower p) as Hl.
  assert (2 ^ 31 <= 2 ^ (Z.pos (digits2_pos p) - 1))
    by (apply Z.pow_le_mono_r; lia).
  change (2 ^ 31) with 2147483648 in *. lia.
Qed.

(** Rounding a significand of 53 digits changes nothing. *)
Lemma binary_round_aux_canonical s m e :
  digits2_pos m = 53%positive -> -1074 <= e <= 971 ->
  binary_round_aux prec emax s (Z.pos m) e loc_Exact = S754_finite s m e.
Proof.
  intros Hd He.
  assert (Hshift : fexp prec emax (Z.pos 53 + e) - e = 0)
    by (unfold fexp, emin, prec, emax; lia).
  unfold binary_round_aux, shr_fexp. cbn [Zdigits2 shr_record_of_loc].
  rewrite Hd, Hshift. cbn [shr shr_m loc_of_shr_record round_nearest_even].
  cbn [Zdigits2 shr_record_of_loc]. rewrite Hd, Hshift. cbn [shr shr_m].
  unfold prec, emax.
  destruct (Z.leb_spec e (1024 - 53)); [reflexivity | lia].
Qed.

(** The product with 1.0 of a float of 53 digits is that float. *)
Lemma mul_one_canonical s m e :
  digits2_pos m = 53%positive -> -1022 <= e <= 971 ->
  mul (S754_finite s m e) one = S754_finite s m e.
Proof.
  intros Hd He. unfold mul, one, SFmul.
  rewrite xorb_false_r, Pos.mul_comm. cbn [Pos.mul].
  assert (Hshift : fexp prec emax (Z.pos 105 + (e + -52)) - (e + -52) = 52)
    by (unfold fexp, emin, prec, emax; lia).
  unfold binary_round_aux at 1. unfold shr_fexp at 1.
  cbn [Zdigits2 digits2_pos shr_record_of_loc]. rewrite Hd.
  cbn [Pos.succ]. rewrite Hshift.
  cbn [shr iter_pos shr_1 orb shr_m loc_of_shr_record round_nearest_even].
  replace (e + -52 + 52) with e by lia.
  assert (Hshift0 : fexp prec emax (Z.pos 53 + e) - e = 0)
    by (unfold fexp, emin, prec, emax; lia).
  unfold shr_fexp. cbn [Zdigits2 shr_record_of_loc]. rewrite Hd, Hshift0.
  cbn [shr shr_m]. unfold prec, emax.
  destruct (Z.leb_spec e (1024 - 53)); [reflexivity | lia].
Qed.

(** The float of a positive [int32]: its digits shifted up to 53. *)
Lemma of_int32_pos p :
  Z.pos p <= 2147483647 ->
  exists q,
    (digits2_pos p + q = 53)%positive
    /\ of_int32 (Z.pos p) = S754_finite false (Pos.iter xO p q) (Z.neg q).
Proof.
  intros Hp. pose proof (digits2_int32 p Hp) as Hd.
  unfold of_int32, binary_normalize, binary_round.
  assert (Hf : fexp prec emax (Z.pos (digits2_pos p) + 0)
               = Z.pos (digits2_pos p) - 53)
    by (unfold fexp, emin, prec, emax; lia).
  rewrite Hf. unfold shl_align.
  destruct (Z.pos (digits2_pos p) - 53 - 0) as [|q|q] eqn:Eq; try lia.
  assert (Hq : (digits2_pos p + q = 53)%positive) by lia.
  exists q. split; [exact Hq|].
  replace (Z.pos (digits2_pos p) - 53) with (Z.neg q) by lia.
  apply binary_round_aux_canonical.
  - now rewrite digits2_shift.
  - lia.
Qed.

Lemma trunc_mul_one p :
  Z.pos p <= 2147483647 ->
  trunc (mul (of_int32 (Z.pos p)) one) = Some (Z.pos p).
Proof.
  intros Hp. destruct (of_int32_pos p Hp) as [q [Hq ->]].
  rewrite mul_one_canonical; [| now rewrite digits2_shift | lia].
  cbn [trunc Z.leb Z.compare Z.opp].
  rewrite Zpos_shift, Z.div_mul by lia. reflexivity.
Qed.

End ExactFacts.

Section Identity.

Variable env : Env.

(** With sensitivity 1.0 the scaled magnitude is the raw magnitude, for
    every [int32]. *)
Theorem scale_one v : Int32.in_range v -> scale env one v = v.
Proof.
  unfold Int32.in_range, Int32.min_int, Int32.max_int. intros Hv.
  destruct v as [|p|p].
  - reflexivity.
  - apply scale_of_trunc; [|lia]. apply ExactFacts.trunc_mul_one. lia.
  - destruct (Z.eq_dec (Z.neg p) (-2147483648)) as [->|Hne].
    + reflexivity.
    + change (Z.neg p) with (- Z.pos p).
      apply scale_opp_of_trunc; [|lia]. apply ExactFacts.trunc_mul_one. lia.
Qed.

End Identity.

Lemma scale_one_witness :
  scale (Samples.env_ok 0) one (-123456789) = -123456789.
Proof.
  apply scale_one.
  unfold Int32.in_range, Int32.min_int, Int32.max_int. lia.
Defined.
